(* ===== verification/_CoqProject ===== *)
-Q . S2P
Prelude.v
PyStr.v
Regex.v
Gate.v
PyVal.v
Sqlite.v
Init.v
Execute.v
Api.v
Server.v
