(* ===== verification/Prelude.v ===== *)
(** * A verification development for SQLAgent

    ** The program

    SQLAgent is a small Flask web service in two near-duplicate Python
    files, [src/super_simple_app.py] and [src/simple_app.py].  A client
    POSTs free-form SQL text to [/api/execute]; in "safe" mode the text
    first goes through a syntactic query gate (strip, keyword scan,
    separator check, LIMIT injection), then it is run against a SQLite
    file through Python's [sqlite3] module and the outcome is returned
    as a JSON object.  [/api/schema] lists the tables and their columns
    and [/api/samples] returns a fixed catalogue of sample queries.

    The parts interact in one direction: a view reads the request body,
    calls the query runner ([run_sql], or in [simple_app.py] the
    undefined [execute_sql_query]), which calls the gate and then the
    [sqlite3] calls; the view passes the resulting dictionary to
    [jsonify].

    ** Files, in dependency order

    - [Prelude] (this file): the scope [sqlagent_scope], the hint
      databases [sqlagent] and [sqlagent_rw], the tactics and the
      generic lemmas on strings, lists and booleans.
    - [PyStr] (Module [PyStr]): the Python [str] operations the code
      uses ([str.strip], [str.rstrip(";")], [";" in s],
      [s.upper().startswith("SELECT")]) and the character classes of
      [re] ([\s], [\d], [\w]) and of [re.I], on strings read as Latin-1
      code points.
    - [Regex] (Module [Regex]): [re.search] for the two patterns of the
      code, as a backtracking matcher in continuation-passing style, with
      the characterisation of [(k1|...|kn)] by the words of the text.
    - [Gate] (Module [Gate]): the [if safe:] block of [run_sql]
      (super_simple_app.py 31-38, simple_app.py 40-63) as the pure
      function [safe_gate], its declarative specification [gate_spec]
      and the theorems C1-C6.
    - [PyVal] (Module [PyVal]): Python values, dicts as insertion-ordered
      association lists, [jsonify] (Flask's, a library the code calls)
      and the exceptions.
    - [Sqlite] (Module [Sqlite]): the [sqlite3] interface as the
      typeclass [SqliteBackend] (the promise the database makes to the
      handlers), the world (file, request connection, log of calls), the
      state-and-exception monad [PyM] with [py_try] for
      [try/except Exception], the calls [db_connect] ([get_db]),
      [get_db_connection], [db_execute], [db_fetchall], [db_commit],
      [db_close], a scripted instance used by the witnesses, and the
      connection protocol as the step relation [pstep].  Its monad
      [StM W] is over any state [W]; [PyM] is [StM] over the [World].
      [reads_only] is a computation that leaves the file as it was,
      with its closure lemmas in the hint database [reads_only].
    - [Init] (Module [Init]): [init_db] (super_simple_app.py 20-26) and
      [initialize_db] (simple_app.py 18-32) over a disk state (database
      file, seed file, call log) and the typeclass [SqliteScript] for
      [sqlite3.connect] on a missing file and [executescript]; theorems
      C27-C29.
    - [Execute] (Module [Execute]): [run_sql] (super_simple_app.py
      29-55) and [execute_sql_query_body] (simple_app.py 37-99), both
      built from [gate_step] and [statement_step]; the spec's pipeline
      ([adapter], [pipeline], the normalisers); theorems C7-C10, C12,
      C13, C22, C25, C26.
    - [Api] (Module [Api]): the views [execute], [schema], [samples] of
      super_simple_app.py and [api_execute], [get_schema]/[api_schema],
      [api_samples] of simple_app.py; theorems C11, C14-C17, C19-C21,
      C23, C24, C30.
    - [Server] (Module [Server]): the route tables of both files (the
      [@app.route] decorators), Flask's [dispatch] (404, 405), [home] and
      [index], [serve] answering a sequence of requests (one connection
      per request, the file passed on), and the [__main__] start-ups
      [ss_startup] (with [init_db]) and [s_startup] (without
      [initialize_db]), which join [Init]'s disk to the handlers' world;
      theorems C18, C31, C32.

    ** What the theorems show

    - The gate (C1-C6): what it lets through is a single statement with
      no blocked word and a LIMIT clause; it refines [gate_spec], the
      spec's algorithm read on the code's own strip; the keyword scan
      is exactly "a word of the cleaned text is a keyword"; LIMIT
      injection, and an explicit LIMIT of any size is kept; all
      trailing [;] go, not one; idempotence after one pass.
    - The runner (C7-C10, C12, C13, C22, C25, C26): rejection makes no
      call; no exception escapes and the response is well formed; the
      calls follow the connection protocol and the connection is closed
      exactly on success (it leaks on every failure); the executed
      statement is the gate's output; database messages are passed on
      verbatim; commit only for non-SELECT; safe mode commits a
      non-SELECT statement that has no blocked word; both runners are
      the spec's pipeline Gate / Execution Adapter / Normalizer; a run
      makes at most four calls and one statement.
    - The endpoints (C11, C14-C17, C19-C21, C23, C24, C30): in safe mode
      (or with no level) every statement [/api/execute] sends is the
      gate's output for the body's text; [api_execute] always raises
      [NameError]; a blank query reaches the database in
      super_simple_app.py; any level other than "safe" disables the
      gate; a BLOB result is a 500; the empty query makes no call; the
      schema listing of both files on success, and on a failing PRAGMA;
      a body that is not a JSON object is a 500.
    - Seeding (C27-C29): a fresh file is seeded; seeding is attempted
      at most once, so a failed seeding (missing seed file, failing
      statement) is never repaired; the missing seed file is found only
      after the empty database file was created.
    - The server (C18, C31, C32): simple_app.py's server never writes the
      database file over any sequence of requests when the statements
      of its schema listing only read (an invariant of the served
      state); the URL map of both files for every request (404, 405,
      the page, the execute view); only super_simple_app.py seeds the
      database at start-up, so simple_app.py serves an empty one.

    Every theorem about the handlers is stated for every instance of
    [SqliteBackend]; the witnesses run the handlers on the scripted
    instance.

    ** Bounds and modelling choices

    - Strings are Rocq [string]s, one [ascii] per character, read as the
      code points U+0000..U+00FF; the character classes are CPython's on
      that range.  Characters above U+00FF are not modelled (their
      [re.I] folds and Unicode classes are out of scope).
    - No fuel is needed: every loop of the code runs over a finite list
      (the characters of the text, the rows, the tables) and is a
      structural [Fixpoint].  No theorem is of kind termination: every
      loop of the code ends whatever its body does, so its termination
      says nothing about this program.
    - A float is kept by its [repr]; integers are [Z] (Python's are
      unbounded).  [cursor.rowcount] is whatever the backend reports.
    - A table name read from [sqlite_master] is a [str]; another value
      is refused with [TypeError] ([table_key]).
    - The message of [TypeError] for a non-[str] argument of
      [cursor.execute] is the text of CPython 3.11.

    ** Not modelled

    The content of the template [simple_index.html] (outside [src/]);
    the [print]s of the [__main__] blocks (their texts hold characters
    above U+00FF, outside the modelled strings); the hard-coded
    [secret_key] and API key (constant assignments no code reads; the
    key is a credential and is not reproduced; recorded as findings);
    HEAD and OPTIONS, which Flask adds to every rule; JSON body parsing;
    the key order of Flask's JSON output; SQLite itself (the abstract
    backends [SqliteBackend] and [SqliteScript]); a failing
    [sqlite3.connect] in [init_db]; the threads of Flask's development
    server ([serve] answers the requests one after another).  [run_sql]
    and the body of
    [execute_sql_query] call [db_connect] for both [get_db()] and
    [get_db_connection()] (the same call); [get_schema()] calls
    [get_db_connection].

    ** Plan

    Nothing of the two files is left that can be modelled faithfully;
    what remains is outside [src/] or is a library the code calls
    (listed above). *)

From Stdlib Require Import String Ascii List Bool Lia.
Import ListNotations.

Declare Scope sqlagent_scope.
Delimit Scope sqlagent_scope with sqla.

Create HintDb sqlagent discriminated.
Create Rewrite HintDb sqlagent_rw.

(** ** Tactics *)

(** Case analysis on the 256 values of a character: the character
    classes of the model are boolean functions of the code point, and
    their algebraic facts are checked on every code point. *)
Ltac ascii_cases c := destruct c as [[] [] [] [] [] [] [] []].

Ltac by_ascii_cases :=
  let c := fresh "c" in intros c; ascii_cases c; reflexivity.

(** ** Strings *)

Local Open Scope string_scope.

(** The first character of a string, if any. *)
Definition head_char (s : string) : option ascii :=
  match s with
  | EmptyString => None
  | String c _ => Some c
  end.

(** The last character of [s], or [prev] when [s] is empty: the
    character that precedes the position just after [s]. *)
Fixpoint last_char (prev : option ascii) (s : string) : option ascii :=
  match s with
  | EmptyString => prev
  | String c s' => last_char (Some c) s'
  end.

Lemma append_empty_r (s : string) : s ++ "" = s.
Proof. induction s as [|c s IH]; simpl; [reflexivity | now rewrite IH]. Qed.

Lemma append_assoc_s (a b c : string) : (a ++ b) ++ c = a ++ (b ++ c).
Proof. induction a as [|x a IH]; simpl; [reflexivity | now rewrite IH]. Qed.

Lemma length_append_s (a b : string) :
  String.length (a ++ b) = String.length a + String.length b.
Proof. induction a as [|x a IH]; simpl; [reflexivity | now rewrite IH]. Qed.

Lemma last_char_append (prev : option ascii) (a b : string) :
  last_char prev (a ++ b) = last_char (last_char prev a) b.
Proof. revert prev; induction a as [|x a IH]; intros prev; simpl; auto. Qed.

Lemma append_eq_empty (a b : string) :
  a ++ b = EmptyString -> a = EmptyString /\ b = EmptyString.
Proof. destruct a; simpl; [auto | discriminate]. Qed.

#[export] Hint Rewrite append_empty_r append_assoc_s length_append_s
  last_char_append : sqlagent_rw.

(** ** Lists and booleans *)

Lemma existsb_false_forall {A} (f : A -> bool) (l : list A) :
  existsb f l = false <-> (forall x, In x l -> f x = false).
Proof.
  induction l as [|y l IH]; simpl; [tauto|].
  rewrite orb_false_iff, IH. split.
  - intros [Hy Hl] x [<-|Hx]; auto.
  - intros H; split; auto.
Qed.

Lemma existsb_map_comp {A B} (f : B -> bool) (g : A -> B) (l : list A) :
  existsb f (map g l) = existsb (fun x => f (g x)) l.
Proof. induction l as [|x l IH]; simpl; [reflexivity|now rewrite IH]. Qed.

Lemma existsb_ext_in {A} (f g : A -> bool) (l : list A) :
  (forall x, In x l -> f x = g x) -> existsb f l = existsb g l.
Proof.
  induction l as [|x l IH]; intros H; simpl; [reflexivity|].
  rewrite H by (left; reflexivity). f_equal. apply IH; intros y Hy; apply H; now right.
Qed.

#[export] Hint Rewrite existsb_app forallb_app : sqlagent_rw.

Lemma fold_left_map_comp {A B C} (g : C -> B -> C) (h : A -> B) (l : list A) (acc : C) :
  fold_left g (map h l) acc = fold_left (fun a x => g a (h x)) l acc.
Proof. revert acc; induction l as [|x l IH]; intros acc; simpl; auto. Qed.

Lemma flat_map_map_comp {A B C} (f : B -> list C) (h : A -> B) (l : list A) :
  flat_map f (map h l) = flat_map (fun x => f (h x)) l.
Proof. induction l as [|x l IH]; simpl; [reflexivity|now rewrite IH]. Qed.

#[export] Hint Rewrite @fold_left_map_comp @flat_map_map_comp : sqlagent_rw.
