(* ===== verification/PyStr.v ===== *)
(** * Python [str] operations used by the query gate

    A Python string is modelled as a Rocq [string] whose characters are
    read as the code points U+0000..U+00FF (Latin-1).  The character
    classes are those of CPython for these code points:
    - [is_space]: [Py_UNICODE_ISSPACE], used by [str.strip()] and by the
      regular-expression class [\s];
    - [is_word]: [Py_UNICODE_ISALNUM] or ['_'], the class [\w] and hence
      the word boundary [\b] of [re] on [str] patterns;
    - [is_decimal]: [Py_UNICODE_ISDECIMAL], the class [\d].
    The operations are [str.strip()], [str.rstrip(";")], [";" in s] and
    the test [s.upper().startswith('SELECT')]. *)

From Stdlib Require Import String Ascii List Bool Lia NArith.
From S2P Require Import Prelude.
Import ListNotations.
Local Open Scope string_scope.

Module PyStr.

(** ** Character classes *)

Definition cp (c : ascii) : N := N_of_ascii c.

Definition in_range (lo hi : N) (c : ascii) : bool :=
  (lo <=? cp c)%N && (cp c <=? hi)%N.

Definition is_cp (n : N) (c : ascii) : bool := (cp c =? n)%N.

(** [Py_UNICODE_ISSPACE]: U+0009..U+000D, U+001C..U+001F, U+0020,
    U+0085 and U+00A0. *)
Definition is_space (c : ascii) : bool :=
  in_range 9 13 c || in_range 28 31 c || is_cp 32 c || is_cp 133 c
  || is_cp 160 c.

(** [Py_UNICODE_ISDECIMAL]: only the ASCII digits below U+0100. *)
Definition is_decimal (c : ascii) : bool := in_range 48 57 c.

Definition is_ascii_upper (c : ascii) : bool := in_range 65 90 c.
Definition is_ascii_lower (c : ascii) : bool := in_range 97 122 c.

(** [Py_UNICODE_ISALPHA] below U+0100: the ASCII letters, U+00AA,
    U+00B5, U+00BA and U+00C0..U+00FF except U+00D7 and U+00F7. *)
Definition is_alpha (c : ascii) : bool :=
  is_ascii_upper c || is_ascii_lower c || is_cp 170 c || is_cp 181 c
  || is_cp 186 c || in_range 192 214 c || in_range 216 246 c
  || in_range 248 255 c.

(** Numeric characters below U+0100 that are not decimal digits:
    superscripts two, three, one and the vulgar fractions. *)
Definition is_other_numeric (c : ascii) : bool :=
  is_cp 178 c || is_cp 179 c || is_cp 185 c || in_range 188 190 c.

(** [\w] of [re] for [str] patterns: [isalnum()] or the underscore. *)
Definition is_word (c : ascii) : bool :=
  is_alpha c || is_decimal c || is_other_numeric c || is_cp 95 c.

(** The simple case mappings of ASCII letters.  Under [re.IGNORECASE] a
    character of U+0000..U+00FF matches an ASCII letter of the pattern
    exactly when its ASCII lower case is that letter (the other
    characters that fold to ASCII letters, U+0130, U+0131, U+017F and
    U+212A, are outside the modelled range). *)
Definition ascii_lower (c : ascii) : ascii :=
  if is_ascii_upper c then ascii_of_N (cp c + 32) else c.

Definition ascii_upper (c : ascii) : ascii :=
  if is_ascii_lower c then ascii_of_N (cp c - 32) else c.

(** Case-insensitive equality of one character, as [re.I] compares a
    subject character with a pattern character. *)
Definition ci_eq (c p : ascii) : bool := Ascii.eqb (ascii_lower c) (ascii_lower p).

(** ** String operations *)

Fixpoint map_str (f : ascii -> ascii) (s : string) : string :=
  match s with
  | EmptyString => EmptyString
  | String c s' => String (f c) (map_str f s')
  end.

(** Leading characters of class [p] removed. *)
Fixpoint lstrip_by (p : ascii -> bool) (s : string) : string :=
  match s with
  | EmptyString => EmptyString
  | String c s' => if p c then lstrip_by p s' else s
  end.

(** Trailing characters of class [p] removed: [str.rstrip(chars)] when
    [p] is membership in [chars]. *)
Fixpoint rstrip_by (p : ascii -> bool) (s : string) : string :=
  match s with
  | EmptyString => EmptyString
  | String c s' =>
      match rstrip_by p s' with
      | EmptyString => if p c then EmptyString else String c EmptyString
      | r => String c r
      end
  end.

(** [str.strip()] with no argument. *)
Definition strip (s : string) : string :=
  rstrip_by is_space (lstrip_by is_space s).

(** [str.rstrip(";")]. *)
Definition is_semicolon (c : ascii) : bool := Ascii.eqb c ";"%char.
Definition rstrip_semicolons (s : string) : string := rstrip_by is_semicolon s.

(** [ch in s] for a one-character string [ch]. *)
Fixpoint contains_char (ch : ascii) (s : string) : bool :=
  match s with
  | EmptyString => false
  | String c s' => Ascii.eqb c ch || contains_char ch s'
  end.

Fixpoint all_chars (p : ascii -> bool) (s : string) : bool :=
  match s with
  | EmptyString => true
  | String c s' => p c && all_chars p s'
  end.

(** [s.upper().startswith(w)] for an upper-case ASCII word [w].  Only
    [a..z] of U+0000..U+00FF upper-case to ASCII letters; U+00DF
    upper-cases to "SS", which cannot extend a prefix of "SELECT"
    because the letter after the first S of "SELECT" is E. *)
Definition upper_startswith (w s : string) : bool :=
  String.prefix w (map_str ascii_upper s).

(** ** Facts about the character classes *)

Lemma decimal_is_word c : is_decimal c = true -> is_word c = true.
Proof. intros H; unfold is_word; now rewrite H, ?orb_true_r. Qed.

Lemma space_word_disjoint : forall c, is_space c && is_word c = false.
Proof. by_ascii_cases. Qed.

Lemma space_not_word c : is_space c = true -> is_word c = false.
Proof. intros H. pose proof (space_word_disjoint c) as D. now rewrite H in D. Qed.

Lemma ascii_lower_word : forall c, is_word (ascii_lower c) = is_word c.
Proof. by_ascii_cases. Qed.

Lemma ci_eq_word c p : ci_eq c p = true -> is_word c = is_word p.
Proof.
  unfold ci_eq; intros H; apply Ascii.eqb_eq in H.
  now rewrite <- (ascii_lower_word c), <- (ascii_lower_word p), H.
Qed.

Lemma decimal_not_space c : is_decimal c = true -> is_space c = false.
Proof.
  intros H. pose proof (space_word_disjoint c) as D. rewrite (decimal_is_word c H) in D.
  now rewrite andb_true_r in D.
Qed.

Lemma ci_eq_refl c : ci_eq c c = true.
Proof. apply Ascii.eqb_refl. Qed.

#[export] Hint Resolve decimal_is_word space_not_word ci_eq_refl : sqlagent.

(** ** Facts about stripping *)

Section Strip.
Variable p : ascii -> bool.

Lemma rstrip_by_empty_iff s : rstrip_by p s = EmptyString <-> all_chars p s = true.
Proof.
  induction s as [|c s IH]; simpl; [tauto|].
  destruct (rstrip_by p s) as [|x r]; destruct (p c); simpl; split;
    intros H; try discriminate; try reflexivity; try apply IH; try congruence;
    apply IH in H; discriminate.
Qed.

Lemma rstrip_by_all s : all_chars p s = true -> rstrip_by p s = EmptyString.
Proof. apply rstrip_by_empty_iff. Qed.

(** Appending characters of the stripped class changes nothing. *)
Lemma rstrip_by_app_all s t :
  all_chars p t = true -> rstrip_by p (s ++ t) = rstrip_by p s.
Proof.
  intros Ht; induction s as [|c s IH]; simpl; [now apply rstrip_by_all|].
  now rewrite IH.
Qed.

(** A suffix holding a character outside the class protects the prefix. *)
Lemma rstrip_by_app_not_all a b :
  all_chars p b = false -> rstrip_by p (a ++ b) = (a ++ rstrip_by p b)%string.
Proof.
  intros Hb; induction a as [|c a IH]; simpl; [reflexivity|].
  rewrite IH. destruct (a ++ rstrip_by p b)%string eqn:E; [|reflexivity].
  apply append_eq_empty in E as [_ E].
  apply rstrip_by_empty_iff in E; congruence.
Qed.

(** The input is the result followed by stripped characters. *)
Lemma rstrip_by_decomp s :
  exists t, s = (rstrip_by p s ++ t)%string /\ all_chars p t = true.
Proof.
  induction s as [|c s [t [Hs Ht]]]; simpl; [now exists EmptyString|].
  destruct (rstrip_by p s) as [|x r] eqn:R; simpl in *.
  - destruct (p c) eqn:Pc; simpl.
    + exists (String c s); simpl; rewrite Pc; subst; auto.
    + exists t; subst; auto.
  - exists t; subst; auto.
Qed.

Lemma rstrip_by_cons c s :
  rstrip_by p (String c s) =
  match rstrip_by p s with
  | EmptyString => if p c then EmptyString else String c EmptyString
  | r => String c r
  end.
Proof. reflexivity. Qed.

Lemma rstrip_by_idem s : rstrip_by p (rstrip_by p s) = rstrip_by p s.
Proof.
  induction s as [|c s IH]; simpl; [reflexivity|].
  destruct (rstrip_by p s) as [|x r] eqn:R.
  - destruct (p c) eqn:Pc; simpl; [reflexivity|now rewrite Pc].
  - now rewrite rstrip_by_cons, IH.
Qed.

Lemma lstrip_by_head s c : head_char (lstrip_by p s) = Some c -> p c = false.
Proof.
  induction s as [|x s IH]; simpl; [discriminate|].
  destruct (p x) eqn:Px; [exact IH|simpl; congruence].
Qed.

(** Stripping the right end keeps a first character outside the class. *)
Lemma lstrip_rstrip_by s :
  (forall c, head_char s = Some c -> p c = false) ->
  lstrip_by p (rstrip_by p s) = rstrip_by p s.
Proof.
  destruct s as [|c s]; intros H; [reflexivity|].
  specialize (H c eq_refl); simpl.
  destruct (rstrip_by p s); rewrite ?H; simpl; now rewrite ?H.
Qed.

Lemma lstrip_by_app a b :
  lstrip_by p (a ++ b) =
  if all_chars p a then lstrip_by p b else (lstrip_by p a ++ b)%string.
Proof.
  induction a as [|c a IH]; simpl; [reflexivity|].
  destruct (p c); simpl; [exact IH|reflexivity].
Qed.

Lemma last_char_some_nonempty x s : s <> EmptyString -> last_char x s = last_char None s.
Proof.
  destruct s as [|c s]; [congruence|intros _; simpl].
  revert c; induction s as [|d s IH]; intros c; simpl; [reflexivity|apply IH].
Qed.

(** A string whose last character is outside the class is its own
    right-strip. *)
Lemma rstrip_by_id_last s :
  (forall x, last_char None s = Some x -> p x = false) -> rstrip_by p s = s.
Proof.
  induction s as [|c s IH]; intros H; [reflexivity|].
  rewrite rstrip_by_cons. destruct s as [|d s].
  - simpl in H; now rewrite (H c eq_refl).
  - rewrite IH; [reflexivity|]. intros x Hx; apply H. rewrite <- Hx.
    exact (last_char_some_nonempty (Some c) (String d s) ltac:(discriminate)).
Qed.

Lemma rstrip_by_last s x :
  last_char None (rstrip_by p s) = Some x -> p x = false.
Proof.
  induction s as [|c s IH]; simpl; [discriminate|].
  destruct (rstrip_by p s) as [|d r] eqn:R; intros H.
  - destruct (p c) eqn:Pc; simpl in H; [discriminate|congruence].
  - apply IH. rewrite <- H. symmetry.
    exact (last_char_some_nonempty (Some c) (String d r) ltac:(discriminate)).
Qed.

(** The right-strip is the only prefix that leaves a stripped tail and
    does not end in the class. *)
Lemma rstrip_by_unique s c t :
  s = (c ++ t)%string -> all_chars p t = true ->
  (forall x, last_char None c = Some x -> p x = false) -> rstrip_by p s = c.
Proof.
  intros -> Ht Hc. rewrite rstrip_by_app_all by exact Ht.
  now apply rstrip_by_id_last.
Qed.

Lemma last_char_all_nonempty prev s :
  s <> EmptyString -> all_chars p s = true ->
  exists x, last_char prev s = Some x /\ p x = true.
Proof.
  revert prev; induction s as [|c s IH]; intros prev Hne Ha; [congruence|].
  simpl in *; apply andb_prop in Ha as [Hc Ha].
  destruct s as [|d s]; [now exists c|]. apply IH; [discriminate|exact Ha].
Qed.

Lemma lstrip_by_id s :
  (forall c, head_char s = Some c -> p c = false) -> lstrip_by p s = s.
Proof. destruct s as [|c s]; intros H; simpl; [reflexivity|now rewrite (H c eq_refl)]. Qed.

(** The first character survives a right-strip that leaves anything. *)
Lemma rstrip_by_head s c :
  head_char (rstrip_by p s) = Some c -> head_char s = Some c.
Proof.
  destruct s as [|x s]; [discriminate|]. rewrite rstrip_by_cons.
  destruct (rstrip_by p s); [destruct (p x)|]; simpl; congruence.
Qed.

(** Right-stripping past a prefix that ends outside the class leaves
    the prefix and a tail that is empty or starts like the original. *)
Lemma rstrip_by_keep_prefix x y :
  (forall z, last_char None x = Some z -> p z = false) ->
  exists y', rstrip_by p (x ++ y) = (x ++ y')%string
             /\ (y' = EmptyString \/ head_char y' = head_char y).
Proof.
  intros Hx. destruct (all_chars p y) eqn:Hy.
  - exists EmptyString; split; [|now left].
    rewrite rstrip_by_app_all, append_empty_r by exact Hy. now apply rstrip_by_id_last.
  - exists (rstrip_by p y); split; [now apply rstrip_by_app_not_all|right].
    destruct (rstrip_by p y) as [|z w] eqn:R.
    + apply rstrip_by_empty_iff in R; congruence.
    + symmetry; apply rstrip_by_head; now rewrite R.
Qed.

End Strip.

Lemma lstrip_strip s : lstrip_by is_space (strip s) = strip s.
Proof. unfold strip. apply lstrip_rstrip_by, lstrip_by_head. Qed.

Lemma strip_head s c : head_char (strip s) = Some c -> is_space c = false.
Proof. intros H. apply rstrip_by_head in H. eapply lstrip_by_head; exact H. Qed.

Lemma semicolon_not_space c : is_semicolon c = true -> is_space c = false.
Proof. unfold is_semicolon; intros H; apply Ascii.eqb_eq in H; now subst. Qed.

Lemma strip_idem s : strip (strip s) = strip s.
Proof.
  unfold strip. rewrite lstrip_rstrip_by by apply lstrip_by_head.
  now rewrite rstrip_by_idem.
Qed.

Lemma strip_empty_iff s : strip s = EmptyString <-> all_chars is_space s = true.
Proof.
  unfold strip; rewrite rstrip_by_empty_iff.
  induction s as [|c s IH]; simpl; [tauto|].
  destruct (is_space c) eqn:E; simpl; [exact IH|rewrite E; tauto].
Qed.

Lemma contains_char_app ch s t :
  contains_char ch (s ++ t) = contains_char ch s || contains_char ch t.
Proof. induction s as [|c s IH]; simpl; [reflexivity|]; now rewrite IH, orb_assoc. Qed.

Lemma contains_char_rstrip p ch s :
  contains_char ch (rstrip_by p s) = true -> contains_char ch s = true.
Proof.
  destruct (rstrip_by_decomp p s) as [t [E _]]. intros H.
  rewrite E, contains_char_app, H. reflexivity.
Qed.

(** A string with no [;] is unchanged by [rstrip(";")]. *)
Lemma rstrip_semicolons_id s :
  contains_char ";" s = false -> rstrip_semicolons s = s.
Proof.
  unfold rstrip_semicolons; induction s as [|c s IH]; simpl; [reflexivity|].
  intros H; apply orb_false_iff in H as [Hc Hs]. rewrite IH by exact Hs.
  unfold is_semicolon; rewrite Hc. now destruct s.
Qed.

#[export] Hint Rewrite contains_char_app strip_idem : sqlagent_rw.

End PyStr.
