(* ===== verification/Regex.v ===== *)
(** * The fragment of Python's [re] used by the query gate

    [re.search(pattern, s, re.I)] is modelled by a backtracking matcher in
    continuation-passing style, the way CPython's [sre] engine explores
    the pattern: a matcher receives a continuation, the character before
    the current position (needed by [\b]) and the rest of the subject,
    and succeeds when one of its ways to match a prefix lets the
    continuation succeed.  The constructs are those of the two patterns
    of the code: [\b], a literal under [re.I], an alternation of
    literals, and [X+] for a character class ([\s], [\d]).  [search]
    tries the pattern at every position from left to right, the end of
    the string included.

    The main lemma, [search_bounded_alt], characterises the pattern
    [\b(k1|...|kn)\b] for words [ki] of word characters: it matches
    exactly when one of the maximal runs of word characters of the
    subject (the list [words s]) equals some [ki] up to case. *)

From Stdlib Require Import String Ascii List Bool Lia.
From S2P Require Import Prelude PyStr.
Import ListNotations.
Local Open Scope string_scope.

Module Regex.
Import PyStr.

(** ** Matchers *)

Definition cont := option ascii -> string -> bool.
Definition matcher := cont -> cont.

Definition is_word_opt (o : option ascii) : bool :=
  match o with Some c => is_word c | None => false end.

(** The continuation that accepts: [re.search] needs no more than a
    match of the whole pattern. *)
Definition k_accept : cont := fun _ _ => true.

(** [\b]: the characters on the two sides differ in [\w]-ness, the
    ends of the string counting as non-word. *)
Definition m_bound : matcher := fun k prev s =>
  if xorb (is_word_opt prev) (is_word_opt (head_char s)) then k prev s else false.

(** A literal of the pattern, each character compared under [re.I]. *)
Fixpoint m_lit (w : string) (k : cont) (prev : option ascii) (s : string)
  {struct w} : bool :=
  match w with
  | EmptyString => k prev s
  | String p w' =>
      match s with
      | EmptyString => false
      | String c s' => if ci_eq c p then m_lit w' k (Some c) s' else false
      end
  end.

(** [C+] for a character class [C]: greedy, then backtracking to every
    shorter count of at least one. *)
Fixpoint m_plus (cls : ascii -> bool) (k : cont) (prev : option ascii) (s : string)
  : bool :=
  match s with
  | EmptyString => false
  | String c s' =>
      if cls c then (if m_plus cls k (Some c) s' then true else k (Some c) s')
      else false
  end.

(** [(m1|m2|...)]: the alternatives in order. *)
Definition m_alt (ms : list matcher) : matcher := fun k prev s =>
  existsb (fun m => m k prev s) ms.

(** Concatenation. *)
Definition m_seq (m1 m2 : matcher) : matcher := fun k => m1 (m2 k).

(** [re.search]: the first position where the pattern matches, scanning
    left to right; the result is whether there is one. *)
Fixpoint search (m : matcher) (prev : option ascii) (s : string) : bool :=
  if m k_accept prev s then true
  else match s with
       | EmptyString => false
       | String c s' => search m (Some c) s'
       end.

Definition re_search (m : matcher) (s : string) : bool := search m None s.

(** [\b(k1|...|kn)\b]. *)
Definition bounded_alt (kws : list string) : matcher :=
  m_seq m_bound (m_seq (m_alt (map m_lit kws)) m_bound).

(** ** Words: the maximal runs of word characters *)

(** The run of word characters at the start of [s]. *)
Fixpoint take_word (s : string) : string :=
  match s with
  | EmptyString => EmptyString
  | String c s' => if is_word c then String c (take_word s') else EmptyString
  end.

(** The runs that start in [s], given the character before [s]. *)
Fixpoint words_after (prev : option ascii) (s : string) : list string :=
  match s with
  | EmptyString => []
  | String c s' =>
      if is_word c && negb (is_word_opt prev)
      then take_word s :: words_after (Some c) s'
      else words_after (Some c) s'
  end.

Definition words (s : string) : list string := words_after None s.

(** Case-insensitive equality of strings. *)
Fixpoint ci_str_eq (s w : string) : bool :=
  match s, w with
  | EmptyString, EmptyString => true
  | String c s', String p w' => ci_eq c p && ci_str_eq s' w'
  | _, _ => false
  end.

Definition ci_member (kws : list string) (w : string) : bool :=
  existsb (ci_str_eq w) kws.

(** ** The combinators as boolean connectives

    The definitions test with [if] so that evaluation explores a branch
    only when the engine would; as propositions they are the connectives
    below. *)

Lemma search_nil m prev : search m prev EmptyString = m k_accept prev EmptyString || false.
Proof. reflexivity. Qed.

Lemma search_cons m prev c s :
  search m prev (String c s) = m k_accept prev (String c s) || search m (Some c) s.
Proof. reflexivity. Qed.

Lemma m_lit_cons p w k prev c s :
  m_lit (String p w) k prev (String c s) = ci_eq c p && m_lit w k (Some c) s.
Proof. reflexivity. Qed.

Lemma m_plus_cons cls k prev c s :
  m_plus cls k prev (String c s) = cls c && (m_plus cls k (Some c) s || k (Some c) s).
Proof. reflexivity. Qed.

(** ** Lemmas on [search] *)

Lemma search_cons_r m prev c s :
  search m (Some c) s = true -> search m prev (String c s) = true.
Proof. intros H; now rewrite search_cons, H, orb_true_r. Qed.

(** A match in a suffix is a match of the whole string. *)
Lemma search_app_r m prev a b :
  search m (last_char prev a) b = true -> search m prev (a ++ b) = true.
Proof.
  revert prev; induction a as [|c a IH]; intros prev H; [exact H|].
  cbn [append last_char] in *. now rewrite search_cons, (IH _ H), orb_true_r.
Qed.

(** ** Lemmas on words *)

Lemma take_word_app_nonword a b :
  is_word_opt (head_char b) = false -> take_word (a ++ b) = take_word a.
Proof.
  intros Hb; induction a as [|c a IH]; simpl.
  - destruct b as [|c b]; simpl in *; [reflexivity|now rewrite Hb].
  - now rewrite IH.
Qed.

(** Appending a string that starts outside a word appends its words. *)
Lemma words_after_app prev a b :
  is_word_opt (head_char b) = false ->
  words_after prev (a ++ b) = (words_after prev a ++ words_after (last_char prev a) b)%list.
Proof.
  intros Hb; revert prev; induction a as [|c a IH]; intros prev; simpl; [reflexivity|].
  rewrite IH. destruct (is_word c && negb (is_word_opt prev)); [|reflexivity].
  change (String c (a ++ b)) with (String c a ++ b).
  now rewrite take_word_app_nonword.
Qed.

Lemma words_after_spaces prev r : all_chars is_space r = true -> words_after prev r = [].
Proof.
  revert prev; induction r as [|c r IH]; intros prev H; simpl in *; [reflexivity|].
  apply andb_prop in H as [Hc Hr]. rewrite (space_not_word c Hc). now apply IH.
Qed.

(** Trailing white space carries no word. *)
Lemma words_rstrip_space s : words (rstrip_by is_space s) = words s.
Proof.
  destruct (rstrip_by_decomp is_space s) as [r [E Hr]].
  assert (Hh : is_word_opt (head_char r) = false).
  { destruct r as [|c r]; [reflexivity|]. simpl in *.
    apply andb_prop in Hr as [Hc _]. now apply space_not_word. }
  rewrite E at 2. unfold words.
  now rewrite (words_after_app _ _ _ Hh), (words_after_spaces _ _ Hr), app_nil_r.
Qed.

(** ** Semantics of the combinators

    Each combinator matches a prefix of the subject as its regular
    expression says; together they state what [search] decides. *)

(** [search] finds a position [a | b] where the pattern matches [b]. *)
Lemma search_spec m prev s :
  search m prev s = true <->
  exists a b, s = (a ++ b)%string /\ m k_accept (last_char prev a) b = true.
Proof.
  revert prev; induction s as [|c s IH]; intros prev.
  - rewrite search_nil, orb_false_r; split.
    + intros H; now exists EmptyString, EmptyString.
    + intros [a [b [E H]]]. symmetry in E; apply append_eq_empty in E as [-> ->].
      exact H.
  - rewrite search_cons, orb_true_iff, IH; split.
    + intros [H|[a [b [E H]]]].
      * now exists EmptyString, (String c s).
      * exists (String c a), b; subst; auto.
    + intros [a [b [E H]]]. destruct a as [|x a]; simpl in *.
      * subst; now left.
      * injection E as -> ->. right; now exists a, b.
Qed.

Lemma ci_str_eq_empty_r l : ci_str_eq l EmptyString = true -> l = EmptyString.
Proof. destruct l; simpl; congruence. Qed.

(** A literal consumes a case-insensitive copy of itself. *)
Lemma m_lit_spec w k prev s :
  m_lit w k prev s = true <->
  exists l r, s = (l ++ r)%string /\ ci_str_eq l w = true /\ k (last_char prev l) r = true.
Proof.
  revert prev s; induction w as [|p w IH]; intros prev s.
  - simpl; split.
    + intros H; now exists EmptyString, s.
    + intros [l [r [E [Hl Hk]]]]. apply ci_str_eq_empty_r in Hl; subst; exact Hk.
  - destruct s as [|c s].
    + simpl; split; [discriminate|]. intros [l [r [E [Hl _]]]].
      destruct l; [discriminate|discriminate E].
    + rewrite m_lit_cons, andb_true_iff, IH; split.
      * intros [Hc [l [r [E [Hl Hk]]]]]. exists (String c l), r; subst; simpl.
        now rewrite Hc, Hl.
      * intros [l [r [E [Hl Hk]]]]. destruct l as [|x l]; [discriminate|].
        simpl in E, Hl; injection E as -> ->. apply andb_prop in Hl as [Hx Hl].
        split; [exact Hx|]. now exists l, r.
Qed.

(** [C+] consumes a non-empty run of characters of [C]. *)
Lemma m_plus_spec cls k prev s :
  m_plus cls k prev s = true <->
  exists x r, s = (x ++ r)%string /\ x <> EmptyString /\ all_chars cls x = true
              /\ k (last_char prev x) r = true.
Proof.
  revert prev; induction s as [|c s IH]; intros prev.
  - split; [discriminate|]. intros [x [r [E [Hx _]]]].
    symmetry in E; apply append_eq_empty in E as [E _]; contradiction.
  - rewrite m_plus_cons, andb_true_iff, orb_true_iff, IH; split.
    + intros [Hc [[x [r [E [Hx [Ha Hk]]]]]|Hk]].
      * exists (String c x), r; subst; simpl; rewrite Hc, Ha.
        repeat split; [discriminate|exact Hk].
      * exists (String c EmptyString), s; simpl; rewrite Hc.
        repeat split; [discriminate|exact Hk].
    + intros [x [r [E [Hx [Ha Hk]]]]]. destruct x as [|y x]; [congruence|].
      simpl in E, Ha, Hk; injection E as -> ->. apply andb_prop in Ha as [Hc Ha].
      split; [exact Hc|]. destruct x as [|z x]; [now right|].
      left; exists (String z x), r; repeat split; auto; discriminate.
Qed.

Lemma m_bound_spec k prev s :
  m_bound k prev s = xorb (is_word_opt prev) (is_word_opt (head_char s)) && k prev s.
Proof. reflexivity. Qed.

(** ** The pattern [\b(k1|...|kn)\b] *)

Section BoundedAlt.
Variable kws : list string.
Hypothesis kws_word : forall k, In k kws -> all_chars is_word k = true.
Hypothesis kws_nonempty : forall k, In k kws -> k <> EmptyString.

(** A literal made of word characters followed by [\b] matches at a
    position exactly when the word starting there is that literal. *)
Lemma lit_then_bound w prev s :
  all_chars is_word w = true ->
  (w <> EmptyString \/ is_word_opt prev = true) ->
  m_lit w (m_bound k_accept) prev s = ci_str_eq (take_word s) w.
Proof.
  revert prev s; induction w as [|p w IH]; intros prev s Hw Hne.
  - destruct Hne as [Hne|Hp]; [congruence|].
    simpl m_lit; unfold m_bound; rewrite Hp.
    destruct s as [|c s]; simpl; [reflexivity|destruct (is_word c); reflexivity].
  - simpl in Hw; apply andb_prop in Hw as [Hp Hw].
    destruct s as [|c s]; simpl; [reflexivity|].
    destruct (ci_eq c p) eqn:E; simpl.
    + pose proof (ci_eq_word _ _ E) as Wc; rewrite Hp in Wc; rewrite Wc; simpl.
      rewrite E; simpl. apply IH; [exact Hw|right; exact Wc].
    + destruct (is_word c); simpl; [now rewrite E|reflexivity].
Qed.

Lemma ci_member_take_word_head s :
  ci_member kws (take_word s) = true -> is_word_opt (head_char s) = true.
Proof.
  unfold ci_member; intros H; apply existsb_exists in H as [k [Hk Heq]].
  destruct s as [|c s]; simpl in *.
  - destruct k; [now apply kws_nonempty in Hk|discriminate].
  - destruct (is_word c); [reflexivity|]. destruct k; [now apply kws_nonempty in Hk|discriminate].
Qed.

(** The pattern at one position. *)
Lemma bounded_alt_at prev s :
  bounded_alt kws k_accept prev s =
  negb (is_word_opt prev) && ci_member kws (take_word s).
Proof.
  unfold bounded_alt, m_seq, m_alt, m_bound at 1, ci_member.
  rewrite existsb_map_comp.
  rewrite (existsb_ext_in _ (fun k => ci_str_eq (take_word s) k)).
  2:{ intros k Hk. apply lit_then_bound; [now apply kws_word|left; now apply kws_nonempty]. }
  destruct (existsb (fun k => ci_str_eq (take_word s) k) kws) eqn:E.
  - rewrite (ci_member_take_word_head s E).
    now destruct (is_word_opt prev).
  - rewrite andb_false_r. now destruct (xorb _ _).
Qed.

Lemma ci_member_empty : ci_member kws EmptyString = false.
Proof.
  apply existsb_false_forall; intros k Hk.
  destruct k; [now apply kws_nonempty in Hk|reflexivity].
Qed.

(** [re.search(r"\b(k1|...|kn)\b", s, re.I)] succeeds exactly when a
    word of [s] is one of the [ki] up to case. *)
Lemma search_bounded_alt prev s :
  search (bounded_alt kws) prev s = existsb (ci_member kws) (words_after prev s).
Proof.
  revert prev; induction s as [|c s IH]; intros prev.
  - cbn [search words_after existsb]. rewrite bounded_alt_at; cbn [take_word].
    now rewrite ci_member_empty, andb_false_r.
  - cbn [search words_after]. rewrite bounded_alt_at, IH.
    cbn [take_word]. destruct (is_word c) eqn:Wc; cbn [andb negb].
    + destruct (is_word_opt prev); reflexivity.
    + now rewrite ci_member_empty, andb_false_r.
Qed.

End BoundedAlt.

End Regex.
