(* ===== verification/Gate.v ===== *)
(** * The safe-mode query gate

    The gate is the block at the top of [run_sql] in
    [src/super_simple_app.py] (lines 31-38), repeated word for word in
    the body of [execute_sql_query] in [src/simple_app.py] (lines
    40-63, whose messages differ):

<<
    sql = sql.strip().rstrip(";")
    if re.search(r"\b(INSERT|UPDATE|DELETE|DROP|TRUNCATE|ALTER|CREATE|REPLACE)\b", sql, re.I):
        return {"success": False, "error": "Dangerous operations blocked"}
    if ";" in sql:
        return {"success": False, "error": "Multiple statements blocked"}
    if not re.search(r"\blimit\s+\d+\b", sql, re.I):
        sql += " LIMIT 100"
>>

    [safe_gate] returns the decision of this block ([Allow] with the text
    that goes on to [cursor.execute], or [Reject] with the reason), and
    [gate] adds the [if safe:] test.  The theorems state what the gate
    lets through (no blocked keyword as a word, no [;], a LIMIT clause),
    what it rejects and why, that unsafe mode passes the text unchanged,
    and that [safe_gate] refines the declarative specification
    [gate_spec] written from the spec's algorithm. *)

From Stdlib Require Import String Ascii List Bool Lia.
From S2P Require Import Prelude PyStr Regex.
Import ListNotations.
Local Open Scope string_scope.

Module Gate.
Import PyStr Regex.

(** ** Decisions *)

Inductive RejectReason : Type :=
| DangerousKeyword
| MultipleStatements.

Inductive GateDecision : Type :=
| Allow (final_sql : string)
| Reject (reason : RejectReason).

(** ** The two patterns *)

Definition dangerous_keywords : list string :=
  ["INSERT"; "UPDATE"; "DELETE"; "DROP"; "TRUNCATE"; "ALTER"; "CREATE"; "REPLACE"].

(** [r"\b(INSERT|UPDATE|DELETE|DROP|TRUNCATE|ALTER|CREATE|REPLACE)\b"]. *)
Definition dangerous_re : matcher := bounded_alt dangerous_keywords.

(** [r"\blimit\s+\d+\b"]. *)
Definition limit_re : matcher :=
  m_seq m_bound (m_seq (m_lit "limit")
    (m_seq (m_plus is_space) (m_seq (m_plus is_decimal) m_bound))).

(** The text appended when no LIMIT clause is found. *)
Definition limit_suffix : string := " LIMIT 100".

(** ** The gate *)

(** [sql.strip().rstrip(";")]. *)
Definition clean (sql : string) : string := rstrip_semicolons (strip sql).

Definition safe_gate (sql : string) : GateDecision :=
  let sql_clean := clean sql in
  if re_search dangerous_re sql_clean then Reject DangerousKeyword
  else if contains_char ";" sql_clean then Reject MultipleStatements
  else if negb (re_search limit_re sql_clean) then Allow (sql_clean ++ limit_suffix)
  else Allow sql_clean.

(** [if safe: ...]: unsafe mode leaves the text as it came. *)
Definition gate (safe : bool) (sql : string) : GateDecision :=
  if safe then safe_gate sql else Allow sql.

(** ** The LIMIT pattern, declaratively *)

(** At the start of [b], preceded by [prev]: [\b], "limit" in any case,
    a non-empty run of white space, a non-empty run of digits, [\b]. *)
Definition limit_clause_at (prev : option ascii) (b : string) : Prop :=
  exists l sp d r,
    b = (l ++ sp ++ d ++ r)%string /\ is_word_opt prev = false
    /\ ci_str_eq l "limit" = true
    /\ sp <> EmptyString /\ all_chars is_space sp = true
    /\ d <> EmptyString /\ all_chars is_decimal d = true
    /\ is_word_opt (head_char r) = false.

Definition limit_clause (c : string) : Prop :=
  exists a b, c = (a ++ b)%string /\ limit_clause_at (last_char None a) b.

(** ** The specification of the gate

    The algorithm of the spec (section 4.1), stated without the regular
    expressions: (1) the text is stripped and its trailing separators
    removed; (2) a text one of whose words is a blocked keyword is
    rejected; (3) so is a text that still holds a separator; (4) a LIMIT
    clause is appended when there is none; (5) the text is allowed.
    Step (1) removes every trailing separator, as [rstrip(";")] does. *)

Definition trimmed (sql c : string) : Prop :=
  exists t, strip sql = (c ++ t)%string /\ all_chars is_semicolon t = true
            /\ (forall x, last_char None c = Some x -> is_semicolon x = false).

Definition has_blocked_word (c : string) : Prop :=
  exists w, In w (words c) /\ ci_member dangerous_keywords w = true.

Inductive gate_spec : bool -> string -> GateDecision -> Prop :=
| spec_unsafe sql :
    gate_spec false sql (Allow sql)
| spec_dangerous sql c :
    trimmed sql c -> has_blocked_word c ->
    gate_spec true sql (Reject DangerousKeyword)
| spec_multiple sql c :
    trimmed sql c -> ~ has_blocked_word c -> contains_char ";" c = true ->
    gate_spec true sql (Reject MultipleStatements)
| spec_append_limit sql c :
    trimmed sql c -> ~ has_blocked_word c -> contains_char ";" c = false ->
    ~ limit_clause c -> gate_spec true sql (Allow (c ++ limit_suffix))
| spec_keep_limit sql c :
    trimmed sql c -> ~ has_blocked_word c -> contains_char ";" c = false ->
    limit_clause c -> gate_spec true sql (Allow c).

(** ** Lemmas on the patterns *)

Lemma dangerous_keywords_word k :
  In k dangerous_keywords -> all_chars is_word k = true.
Proof. simpl; intros H; repeat destruct H as [<-|H]; first [reflexivity|contradiction]. Qed.

Lemma dangerous_keywords_nonempty k :
  In k dangerous_keywords -> k <> EmptyString.
Proof. simpl; intros H; repeat destruct H as [<-|H]; first [discriminate|contradiction]. Qed.

(** The keyword scan flags exactly the strings one of whose words is a
    blocked keyword, in any case. *)
Lemma dangerous_search_words prev s :
  search dangerous_re prev s =
  existsb (ci_member dangerous_keywords) (words_after prev s).
Proof.
  apply search_bounded_alt; [exact dangerous_keywords_word|exact dangerous_keywords_nonempty].
Qed.

Lemma re_search_dangerous s :
  re_search dangerous_re s = existsb (ci_member dangerous_keywords) (words s).
Proof. apply dangerous_search_words. Qed.

(** The appended clause consists of the words [LIMIT] and [100] and
    starts with a separator. *)
Lemma words_limit_suffix s :
  words (s ++ limit_suffix) = (words s ++ ["LIMIT"; "100"])%list.
Proof.
  unfold words; rewrite words_after_app by reflexivity.
  f_equal.
Qed.

(** The appended clause matches the LIMIT pattern, whatever precedes it. *)
Lemma limit_suffix_found s : re_search limit_re (s ++ limit_suffix) = true.
Proof.
  apply search_app_r. unfold limit_suffix.
  apply search_cons_r. reflexivity.
Qed.

#[export] Hint Resolve limit_suffix_found : sqlagent.
#[export] Hint Rewrite re_search_dangerous words_limit_suffix : sqlagent_rw.

(** Unfolding the gate into its four outcomes. *)
Lemma safe_gate_cases sql :
  (re_search dangerous_re (clean sql) = true /\ safe_gate sql = Reject DangerousKeyword)
  \/ (re_search dangerous_re (clean sql) = false /\ contains_char ";" (clean sql) = true
      /\ safe_gate sql = Reject MultipleStatements)
  \/ (re_search dangerous_re (clean sql) = false /\ contains_char ";" (clean sql) = false
      /\ re_search limit_re (clean sql) = false
      /\ safe_gate sql = Allow (clean sql ++ limit_suffix))
  \/ (re_search dangerous_re (clean sql) = false /\ contains_char ";" (clean sql) = false
      /\ re_search limit_re (clean sql) = true /\ safe_gate sql = Allow (clean sql)).
Proof.
  unfold safe_gate.
  destruct (re_search dangerous_re (clean sql)) eqn:D; [left; auto|right].
  destruct (contains_char ";" (clean sql)) eqn:M; [left; auto|right].
  destruct (re_search limit_re (clean sql)) eqn:L; [right|left]; auto.
Qed.

Lemma ci_limit_head l r :
  ci_str_eq l "limit" = true -> is_word_opt (head_char (l ++ r)) = true.
Proof.
  destruct l as [|x l]; simpl; [discriminate|].
  intros H; apply andb_prop in H as [H _]. now rewrite (ci_eq_word _ _ H).
Qed.

Lemma decimal_run_word prev d :
  d <> EmptyString -> all_chars is_decimal d = true ->
  is_word_opt (last_char prev d) = true.
Proof.
  intros Hne Ha. destruct (last_char_all_nonempty _ prev d Hne Ha) as [x [-> Hx]].
  simpl; auto with sqlagent.
Qed.

Lemma limit_re_at prev b :
  limit_re k_accept prev b = true <-> limit_clause_at prev b.
Proof.
  unfold limit_re, m_seq. rewrite m_bound_spec, andb_true_iff, m_lit_spec. split.
  - intros [Hx [l [r1 [-> [Hl H1]]]]].
    apply m_plus_spec in H1 as [sp [r2 [-> [Hsp [Hs H2]]]]].
    apply m_plus_spec in H2 as [d [r [-> [Hd [Hdd H3]]]]].
    rewrite m_bound_spec, andb_true_r, decimal_run_word in H3 by assumption.
    rewrite ci_limit_head in Hx by exact Hl.
    exists l, sp, d, r; repeat split; auto.
    + now destruct (is_word_opt prev).
    + now destruct (is_word_opt (head_char r)).
  - intros [l [sp [d [r [-> [Hp [Hl [Hsp [Hs [Hd [Hdd Hr]]]]]]]]]]].
    rewrite ci_limit_head by exact Hl. rewrite Hp. split; [reflexivity|].
    exists l, (sp ++ d ++ r); repeat split; auto.
    apply m_plus_spec; exists sp, (d ++ r); repeat split; auto.
    apply m_plus_spec; exists d, r; repeat split; auto.
    rewrite m_bound_spec, decimal_run_word, Hr by assumption. reflexivity.
Qed.

(** [re.search(r"\blimit\s+\d+\b", c, re.I)] decides [limit_clause]. *)
Lemma re_search_limit c : re_search limit_re c = true <-> limit_clause c.
Proof.
  unfold re_search, limit_clause. rewrite search_spec.
  split; intros [a [b [E H]]]; exists a, b; split; auto; now apply limit_re_at.
Qed.

Lemma clean_trimmed sql : trimmed sql (clean sql).
Proof.
  destruct (rstrip_by_decomp is_semicolon (strip sql)) as [t [E Ht]].
  exists t; repeat split; [exact E|exact Ht|apply rstrip_by_last].
Qed.

Lemma trimmed_clean sql c : trimmed sql c -> c = clean sql.
Proof.
  intros [t [E [Ht Hl]]]. symmetry; unfold clean, rstrip_semicolons.
  eapply rstrip_by_unique; eauto.
Qed.

Lemma blocked_word_iff c : has_blocked_word c <-> re_search dangerous_re c = true.
Proof. now rewrite re_search_dangerous, existsb_exists. Qed.

Lemma not_blocked_word_iff c : ~ has_blocked_word c <-> re_search dangerous_re c = false.
Proof. rewrite blocked_word_iff, not_true_iff_false. reflexivity. Qed.

Lemma not_limit_clause_iff c : ~ limit_clause c <-> re_search limit_re c = false.
Proof. rewrite <- re_search_limit, not_true_iff_false. reflexivity. Qed.

#[export] Hint Resolve clean_trimmed : sqlagent.

(** Stripping an already-stripped text followed by separators keeps it. *)
Lemma strip_app_semicolons s t :
  strip s = s -> t <> EmptyString -> all_chars is_semicolon t = true ->
  strip (s ++ t) = (s ++ t)%string.
Proof.
  intros Hs Hne Ht.
  assert (Hhead : forall c, head_char t = Some c -> is_space c = false).
  { destruct t as [|c t]; [congruence|]; simpl in Ht |- *; intros x [= <-].
    apply andb_prop in Ht as [Hc _]. now apply semicolon_not_space. }
  assert (Hlast : forall x, last_char None t = Some x -> is_space x = false).
  { destruct (last_char_all_nonempty _ None t Hne Ht) as [y [Hy Hsy]].
    intros x Hx; rewrite Hy in Hx; injection Hx as <-. now apply semicolon_not_space. }
  assert (Hall : all_chars is_space t = false).
  { destruct t as [|c t]; [congruence|]; simpl; now rewrite (Hhead c eq_refl). }
  unfold strip at 1; rewrite lstrip_by_app.
  destruct (all_chars is_space s) eqn:As.
  - assert (s = EmptyString) as -> by (rewrite <- Hs; now apply strip_empty_iff).
    simpl; rewrite lstrip_by_id by exact Hhead. now apply rstrip_by_id_last.
  - rewrite <- Hs at 1; rewrite lstrip_strip, Hs.
    rewrite rstrip_by_app_not_all by exact Hall. now rewrite rstrip_by_id_last.
Qed.

(** The text with the clause appended passes the checks the gate made. *)
Lemma append_limit_facts c :
  re_search dangerous_re c = false -> contains_char ";" c = false ->
  re_search dangerous_re (c ++ limit_suffix) = false
  /\ contains_char ";" (c ++ limit_suffix) = false
  /\ re_search limit_re (c ++ limit_suffix) = true.
Proof.
  intros D M. rewrite re_search_dangerous in *.
  rewrite words_limit_suffix, existsb_app, D, contains_char_app, M.
  auto using limit_suffix_found.
Qed.

Lemma clean_head sql x : head_char (clean sql) = Some x -> is_space x = false.
Proof. intros H. apply rstrip_by_head in H. now apply strip_head in H. Qed.

Lemma strip_no_lead s :
  (forall x, head_char s = Some x -> is_space x = false) -> strip s = rstrip_by is_space s.
Proof. intros H. unfold strip. now rewrite lstrip_by_id. Qed.

Lemma strip_append_limit c :
  c <> EmptyString -> (forall x, head_char c = Some x -> is_space x = false) ->
  strip (c ++ limit_suffix) = (c ++ limit_suffix)%string.
Proof.
  intros Hne Hh. unfold strip. rewrite lstrip_by_app, (lstrip_by_id _ c Hh).
  destruct c as [|x c]; [congruence|]. simpl all_chars; rewrite (Hh x eq_refl); simpl andb.
  cbv iota. rewrite rstrip_by_app_not_all by reflexivity. reflexivity.
Qed.

(** Removing trailing white space keeps a LIMIT clause, which ends in a
    digit. *)
Lemma limit_clause_rstrip_space c :
  limit_clause c -> limit_clause (rstrip_by is_space c).
Proof.
  intros [a [b [-> [l [sp [d [r [-> [Hp [Hl [Hsp [Hs [Hd [Hdd Hr]]]]]]]]]]]]]].
  set (x := (a ++ l ++ sp ++ d)%string).
  assert (Ex : (a ++ l ++ sp ++ d ++ r)%string = (x ++ r)%string)
    by (unfold x; now rewrite !append_assoc_s).
  assert (Hx : forall z, last_char None x = Some z -> is_space z = false).
  { intros z Hz. unfold x in Hz. rewrite !last_char_append, (last_char_some_nonempty _ d Hd) in Hz.
    destruct (last_char_all_nonempty _ None d Hd Hdd) as [y [Hy Hyd]].
    rewrite Hy in Hz; injection Hz as <-. now apply decimal_not_space. }
  rewrite Ex. destruct (rstrip_by_keep_prefix _ x r Hx) as [r' [-> Hr']].
  exists a, (l ++ sp ++ d ++ r')%string. split; [unfold x; now rewrite !append_assoc_s|].
  exists l, sp, d, r'. repeat split; auto.
  destruct Hr' as [-> | ->]; [reflexivity|exact Hr].
Qed.

(** ** Properties of the gate *)

(** C1: a text the safe-mode gate lets through contains no blocked
    keyword as a word, no statement separator, and a LIMIT clause: it
    is a single statement whose row count the SQL text bounds. *)
Theorem safe_gate_allow_safe sql final :
  safe_gate sql = Allow final ->
  re_search dangerous_re final = false /\ contains_char ";" final = false
  /\ re_search limit_re final = true.
Proof.
  intros H.
  destruct (safe_gate_cases sql) as [[_ E]|[[_ [_ E]]|[[D [M [_ E]]]|[D [M [L E]]]]]];
    rewrite E in H; try discriminate; injection H as <-.
  - now apply append_limit_facts.
  - auto.
Qed.

(** C2: the gate refines its specification: for every mode and text,
    the code's decision is the one [gate_spec] prescribes, and it is the
    only decision [gate_spec] allows. *)
Theorem gate_refines_spec safe sql d : gate safe sql = d <-> gate_spec safe sql d.
Proof.
  split.
  - intros <-. destruct safe; [simpl|constructor].
    destruct (safe_gate_cases sql)
      as [[D E]|[[D [M E]]|[[D [M [L E]]]|[D [M [L E]]]]]]; rewrite E.
    + eapply spec_dangerous; [apply clean_trimmed|now apply blocked_word_iff].
    + eapply spec_multiple; [apply clean_trimmed|now apply not_blocked_word_iff|exact M].
    + eapply spec_append_limit; [apply clean_trimmed|now apply not_blocked_word_iff|exact M|].
      now apply not_limit_clause_iff.
    + eapply spec_keep_limit; [apply clean_trimmed|now apply not_blocked_word_iff|exact M|].
      now apply re_search_limit.
  - intros H; destruct H as [sql|sql c Ht D|sql c Ht D M|sql c Ht D M L|sql c Ht D M L];
      [reflexivity|..]; apply trimmed_clean in Ht; subst c; simpl; unfold safe_gate.
    + now rewrite (proj1 (blocked_word_iff _) D).
    + now rewrite (proj1 (not_blocked_word_iff _) D), M.
    + now rewrite (proj1 (not_blocked_word_iff _) D), M, (proj1 (not_limit_clause_iff _) L).
    + now rewrite (proj1 (not_blocked_word_iff _) D), M, (proj2 (re_search_limit _) L).
Qed.

(** C3: the keyword scan: the safe-mode gate rejects a text for a
    dangerous operation exactly when one of the words of its cleaned
    form is a blocked keyword, in any letter case; a keyword inside a
    longer identifier ([updated_at], [created]) is not a word and is
    not flagged. *)
Theorem safe_gate_dangerous_iff sql :
  safe_gate sql = Reject DangerousKeyword <->
  exists w, In w (words (clean sql)) /\ ci_member dangerous_keywords w = true.
Proof.
  fold (has_blocked_word (clean sql)). rewrite blocked_word_iff.
  destruct (safe_gate_cases sql)
    as [[D E]|[[D [M E]]|[[D [M [L E]]]|[D [M [L E]]]]]]; rewrite E, D;
    split; congruence.
Qed.

(** C4: LIMIT injection: a text with no blocked word and no separator
    is allowed; " LIMIT 100" is appended exactly when the text has no
    LIMIT clause, and a text that has one goes through unchanged. *)
Theorem safe_gate_limit_injection sql :
  ~ has_blocked_word (clean sql) -> contains_char ";" (clean sql) = false ->
  (limit_clause (clean sql) -> safe_gate sql = Allow (clean sql))
  /\ (~ limit_clause (clean sql) -> safe_gate sql = Allow (clean sql ++ " LIMIT 100")).
Proof.
  intros D M; apply not_blocked_word_iff in D. unfold safe_gate; rewrite D, M.
  split; intros L; [apply re_search_limit in L|apply not_limit_clause_iff in L];
    now rewrite L.
Qed.

(** C5: every trailing separator is removed, not only one: an
    already-stripped text followed by any non-empty run of [;] gets the
    same decision as the text alone. *)
Theorem trailing_separators_ignored s t :
  strip s = s -> t <> EmptyString -> all_chars is_semicolon t = true ->
  safe_gate (s ++ t) = safe_gate s.
Proof.
  intros Hs Hne Ht. unfold safe_gate.
  replace (clean (s ++ t)) with (clean s); [reflexivity|].
  unfold clean, rstrip_semicolons.
  now rewrite strip_app_semicolons, rstrip_by_app_all, Hs.
Qed.

(** A text the gate let through passes it again, stripped. *)
Lemma safe_gate_allow_again sql t :
  safe_gate sql = Allow t -> safe_gate t = Allow (strip t).
Proof.
  intros H.
  destruct (safe_gate_cases sql) as [[_ E]|[[_ [_ E]]|[[D [M [_ E]]]|[D [M [L E]]]]]];
    rewrite E in H; try discriminate; injection H as <-.
  - destruct (clean sql) as [|x c] eqn:C; [vm_compute; reflexivity|].
    assert (Hh := clean_head sql); rewrite C in Hh.
    destruct (append_limit_facts _ D M) as [D' [M' L']].
    rewrite strip_append_limit by (discriminate || exact Hh).
    unfold safe_gate, clean. rewrite strip_append_limit by (discriminate || exact Hh).
    rewrite rstrip_semicolons_id, D', M', L' by exact M'. reflexivity.
  - assert (Hs := strip_no_lead _ (clean_head sql)).
    assert (M' : contains_char ";" (rstrip_by is_space (clean sql)) = false).
    { destruct (contains_char ";" (rstrip_by is_space (clean sql))) eqn:X; [|reflexivity].
      apply contains_char_rstrip in X; congruence. }
    assert (Hc : clean (clean sql) = rstrip_by is_space (clean sql))
      by (unfold clean at 1; now rewrite Hs, rstrip_semicolons_id).
    unfold safe_gate at 1. rewrite Hc, Hs.
    rewrite re_search_dangerous, words_rstrip_space, <- re_search_dangerous, D, M'.
    apply re_search_limit, limit_clause_rstrip_space, re_search_limit in L.
    now rewrite L.
Qed.

(** C6: the gate is idempotent after one pass.  A text [t] the gate
    let through is allowed again, and the only change the second pass
    makes is the white space [strip] removes at the ends (the first
    pass may leave a blank before a removed [;]: "... LIMIT 10 ;" gives
    "... LIMIT 10 "); [strip t] is then a fixed point: the gate allows
    it and returns it unchanged. *)
Theorem safe_gate_idempotent sql t :
  safe_gate sql = Allow t ->
  safe_gate t = Allow (strip t) /\ safe_gate (strip t) = Allow (strip t).
Proof.
  intros H. pose proof (safe_gate_allow_again sql t H) as H1. split; [exact H1|].
  rewrite <- (strip_idem t) at 2. exact (safe_gate_allow_again t (strip t) H1).
Qed.

(** ** Witnesses: the theorems applied to concrete texts *)

Lemma safe_gate_allow_safe_witness :
  safe_gate "SELECT * FROM customers" = Allow "SELECT * FROM customers LIMIT 100"
  /\ (re_search dangerous_re "SELECT * FROM customers LIMIT 100" = false
      /\ contains_char ";" "SELECT * FROM customers LIMIT 100" = false
      /\ re_search limit_re "SELECT * FROM customers LIMIT 100" = true).
Proof.
  split; [vm_compute; reflexivity|].
  apply (safe_gate_allow_safe "SELECT * FROM customers"). vm_compute; reflexivity.
Defined.

Lemma gate_refines_spec_witness :
  gate_spec true "DROP TABLE products" (Reject DangerousKeyword).
Proof. apply (proj1 (gate_refines_spec true "DROP TABLE products" _)). vm_compute; reflexivity. Defined.

Lemma safe_gate_dangerous_iff_witness :
  exists w, In w (words (clean "delete FROM customers WHERE id = 1"))
            /\ ci_member dangerous_keywords w = true.
Proof.
  apply (proj1 (safe_gate_dangerous_iff "delete FROM customers WHERE id = 1")).
  vm_compute; reflexivity.
Defined.

Lemma safe_gate_limit_injection_witness :
  ~ has_blocked_word (clean "SELECT updated_at FROM orders")
  /\ contains_char ";" (clean "SELECT updated_at FROM orders") = false
  /\ safe_gate "SELECT updated_at FROM orders"
     = Allow (clean "SELECT updated_at FROM orders" ++ " LIMIT 100").
Proof.
  assert (D : ~ has_blocked_word (clean "SELECT updated_at FROM orders"))
    by (apply not_blocked_word_iff; vm_compute; reflexivity).
  assert (M : contains_char ";" (clean "SELECT updated_at FROM orders") = false)
    by (vm_compute; reflexivity).
  split; [exact D|split; [exact M|]].
  apply (proj2 (safe_gate_limit_injection "SELECT updated_at FROM orders" D M)).
  rewrite not_limit_clause_iff. vm_compute; reflexivity.
Defined.

Lemma trailing_separators_ignored_witness :
  strip "SELECT 1" = "SELECT 1" /\ ";;" <> EmptyString
  /\ all_chars is_semicolon ";;" = true
  /\ safe_gate ("SELECT 1" ++ ";;") = safe_gate "SELECT 1".
Proof.
  split; [vm_compute; reflexivity|split; [discriminate|split; [reflexivity|]]].
  apply trailing_separators_ignored; [vm_compute; reflexivity|discriminate|reflexivity].
Defined.

Lemma safe_gate_idempotent_witness :
  safe_gate "SELECT * FROM orders LIMIT 10 ;" = Allow "SELECT * FROM orders LIMIT 10 "
  /\ safe_gate "SELECT * FROM orders LIMIT 10 " = Allow "SELECT * FROM orders LIMIT 10"
  /\ safe_gate "SELECT * FROM orders LIMIT 10" = Allow "SELECT * FROM orders LIMIT 10".
Proof.
  split; [vm_compute; reflexivity|].
  apply (safe_gate_idempotent "SELECT * FROM orders LIMIT 10 ;"). vm_compute; reflexivity.
Defined.

End Gate.
