(* ===== verification/PyVal.v ===== *)
(** * Python values, exceptions and dictionaries

    The values the handlers pass around: the parsed JSON body of a
    request ([request.get_json()]), the rows [sqlite3] returns (tuples of
    [None], [int], [float], [str] and [bytes]) and the dictionaries the
    handlers build as responses.  A [dict] is an association list in
    insertion order, as in Python 3.7+; [dict_set] updates a key in place
    and appends a new one.  [jsonify] is Flask's conversion of such a
    value to JSON, which fails with [TypeError] on [bytes].  [PyExc] are
    the exceptions the handlers can raise, with [exc_str] for [str(e)]. *)

From Stdlib Require Import String Ascii List Bool ZArith DecimalString DecimalZ.
From S2P Require Import Prelude PyStr.
Import ListNotations.
Local Open Scope string_scope.

#[local] Set Warnings "-register-all".

Module PyVal.

(** ** Values *)

Inductive pyval : Type :=
| PyNone
| PyBool (b : bool)
| PyInt (z : Z)
| PyFloat (repr : string)   (** a float, by its [repr] *)
| PyStr (s : string)
| PyBytes (bs : list Byte.byte)
| PyList (l : list pyval)
| PyTuple (l : list pyval)
| PyDict (kvs : list (string * pyval)).

(** [type(v).__name__]. *)
Definition type_name (v : pyval) : string :=
  match v with
  | PyNone => "NoneType" | PyBool _ => "bool" | PyInt _ => "int"
  | PyFloat _ => "float" | PyStr _ => "str" | PyBytes _ => "bytes"
  | PyList _ => "list" | PyTuple _ => "tuple" | PyDict _ => "dict"
  end.

(** [bool(v)]: the truth value of [if v:] and [not v]. *)
Definition truthy (v : pyval) : bool :=
  match v with
  | PyNone => false
  | PyBool b => b
  | PyInt z => negb (Z.eqb z 0)
  | PyFloat r => negb (String.eqb r "0.0" || String.eqb r "-0.0")
  | PyStr s => negb (String.eqb s "")
  | PyBytes bs => match bs with [] => false | _ => true end
  | PyList l | PyTuple l => match l with [] => false | _ => true end
  | PyDict kvs => match kvs with [] => false | _ => true end
  end.

(** [v == 'lit'] for a string literal: only an equal [str] compares equal. *)
Definition eq_str_lit (v : pyval) (lit : string) : bool :=
  match v with PyStr s => String.eqb s lit | _ => false end.

(** [str(z)] for an [int]. *)
Definition str_of_Z (z : Z) : string := NilEmpty.string_of_int (Z.to_int z).

(** ** Dictionaries *)

Fixpoint dict_lookup (kvs : list (string * pyval)) (k : string) : option pyval :=
  match kvs with
  | [] => None
  | (k', v) :: rest => if String.eqb k' k then Some v else dict_lookup rest k
  end.

(** [d.get(k, default)]. *)
Definition dict_get (kvs : list (string * pyval)) (k : string) (default : pyval) : pyval :=
  match dict_lookup kvs k with Some v => v | None => default end.

(** [d[k] = v]: in place when the key is present, appended otherwise. *)
Fixpoint dict_set (kvs : list (string * pyval)) (k : string) (v : pyval)
  : list (string * pyval) :=
  match kvs with
  | [] => [(k, v)]
  | (k', v') :: rest =>
      if String.eqb k' k then (k', v) :: rest else (k', v') :: dict_set rest k v
  end.

(** ** JSON *)

Inductive json : Type :=
| JNull
| JBool (b : bool)
| JInt (z : Z)
| JFloat (repr : string)
| JStr (s : string)
| JArr (l : list json)
| JObj (kvs : list (string * json)).

(** [flask.jsonify]: lists and tuples become arrays, dicts objects;
    [bytes] is not serialisable and raises [TypeError]. *)
(** [f] on every element, failing when one fails. *)
Fixpoint seq_map_opt {A B} (f : A -> option B) (l : list A) : option (list B) :=
  match l with
  | [] => Some []
  | x :: r =>
      match f x, seq_map_opt f r with
      | Some y, Some ys => Some (y :: ys)
      | _, _ => None
      end
  end.

Fixpoint fields_map_opt {A B} (f : A -> option B) (kvs : list (string * A))
  : option (list (string * B)) :=
  match kvs with
  | [] => Some []
  | (k, x) :: r =>
      match f x, fields_map_opt f r with
      | Some y, Some ys => Some ((k, y) :: ys)
      | _, _ => None
      end
  end.

Fixpoint jsonify (v : pyval) : option json :=
  match v with
  | PyNone => Some JNull
  | PyBool b => Some (JBool b)
  | PyInt z => Some (JInt z)
  | PyFloat r => Some (JFloat r)
  | PyStr s => Some (JStr s)
  | PyBytes _ => None
  | PyList l | PyTuple l => option_map JArr (seq_map_opt jsonify l)
  | PyDict kvs => option_map JObj (fields_map_opt jsonify kvs)
  end.

(** ** Exceptions *)

Inductive PyExc : Type :=
| SqliteError (msg : string)     (** [sqlite3.Error] and its subclasses *)
| TypeError (msg : string)
| AttributeError (msg : string)
| IndexError (msg : string)
| NameError (msg : string)
| FileNotFoundError (msg : string).

(** [str(e)]. *)
Definition exc_str (e : PyExc) : string :=
  match e with
  | SqliteError m | TypeError m | AttributeError m | IndexError m | NameError m
  | FileNotFoundError m => m
  end.

(** The [AttributeError] of [v.attr] on a value without that attribute. *)
Definition no_attribute (v : pyval) (attr : string) : PyExc :=
  AttributeError ("'" ++ type_name v ++ "' object has no attribute '" ++ attr ++ "'").

(** [seq[i]] on a tuple or list. *)
Definition py_index (v : pyval) (i : nat) : sum PyExc pyval :=
  match v with
  | PyTuple l | PyList l =>
      match nth_error l i with
      | Some x => inr x
      | None => inl (IndexError (type_name v ++ " index out of range"))
      end
  | _ => inl (TypeError ("'" ++ type_name v ++ "' object is not subscriptable"))
  end.

Lemma dict_get_hd k v rest d : dict_get ((k, v) :: rest) k d = v.
Proof. unfold dict_get; simpl; now rewrite String.eqb_refl. Qed.

Lemma dict_get_tl k k' v rest d :
  k' <> k -> dict_get ((k', v) :: rest) k d = dict_get rest k d.
Proof. intros Hne; unfold dict_get; simpl. apply String.eqb_neq in Hne; now rewrite Hne. Qed.

Lemma dict_get_nil k d : dict_get [] k d = d.
Proof. reflexivity. Qed.

#[export] Hint Rewrite dict_get_hd dict_get_nil : sqlagent_rw.

End PyVal.
