(* ===== verification/Sqlite.v ===== *)
(** * The [sqlite3] interface and the effects of the handlers

    The handlers call Python's [sqlite3] module: [sqlite3.connect],
    [conn.cursor()], [cursor.execute], [cursor.fetchall()],
    [cursor.description], [conn.commit()], [cursor.rowcount] and
    [conn.close()].  The database engine itself is not modelled: it is
    the typeclass [SqliteBackend], the promise the module makes to the
    handlers, and every theorem about the handlers holds for every
    instance.  An instance decides whether a connection opens, what a
    statement does (rows, column names, row count, new state, and
    whether it ran in autocommit mode) and whether a commit succeeds.

    The handlers run in the monad [PyM]: explicit passing of a [World]
    (the database file, the state of the request's connection, and the
    log of the calls made to [sqlite3]) with Python exceptions as
    values; [py_try] is [try: ... except Exception as e: ...].  Effects
    on the world are kept when an exception propagates, as in Python.

    [pstep] is the protocol of a connection as a state machine: connect,
    then statements, fetches and commits, then close.  [reads_only] is a computation that leaves the file as it was, with
    the hint database of its closure lemmas. *)

From Stdlib Require Import String List Bool ZArith.
From S2P Require Import Prelude PyVal.
Import ListNotations.
Local Open Scope string_scope.

Module Sqlite.
Import PyVal.

(** ** The interface *)

(** What [cursor.execute(sql)] leaves in the cursor. *)
Record Cursor (S : Type) := mkCursor {
  cur_txn : S;               (** the database as the connection sees it afterwards *)
  cur_autocommit : bool;     (** the statement ran outside a transaction *)
  cur_rows : sum string (list pyval);   (** [fetchall()], or the error of a later step *)
  cur_description : option (list string);  (** column names; [None] without result columns *)
  cur_rowcount : Z
}.
Arguments mkCursor {S}.
Arguments cur_txn {S}. Arguments cur_autocommit {S}. Arguments cur_rows {S}.
Arguments cur_description {S}. Arguments cur_rowcount {S}.

Class SqliteBackend (S : Type) := {
  be_connect : S -> option string;               (** the error of [sqlite3.connect] *)
  be_execute : S -> string -> sum string (Cursor S);
  be_commit : S -> option string                  (** the error of [conn.commit()] *)
}.

(** The calls a handler makes, in order. *)
Inductive Event : Type :=
| EvConnect
| EvExecute (sql : string)
| EvFetchall
| EvCommit
| EvClose.

Inductive Conn (S : Type) : Type :=
| NoConn
| Open (txn : S)
| Closed.
Arguments NoConn {S}. Arguments Open {S}. Arguments Closed {S}.

Record World (S : Type) := mkWorld {
  w_file : S;
  w_conn : Conn S;
  w_log : list Event
}.
Arguments mkWorld {S}. Arguments w_file {S}. Arguments w_conn {S}. Arguments w_log {S}.

(** ** The monad *)

Inductive outcome (A : Type) : Type :=
| Ok (a : A)
| Raised (e : PyExc).
Arguments Ok {A}. Arguments Raised {A}.

(** Python statements over a state [W]: the state after them and
    their outcome; effects are kept when an exception propagates. *)
Definition StM (W A : Type) : Type := W -> W * outcome A.

(** The handlers' computations: the state is the [World]. *)
Definition PyM (S A : Type) : Type := StM (World S) A.

Definition ret {W A} (a : A) : StM W A := fun w => (w, Ok a).

Definition bind {W A B} (m : StM W A) (k : A -> StM W B) : StM W B := fun w =>
  match m w with
  | (w', Ok a) => k a w'
  | (w', Raised e) => (w', Raised e)
  end.

Definition raise {W A} (e : PyExc) : StM W A := fun w => (w, Raised e).

(** [try: m except Exception as e: h(e)]. *)
Definition py_try {W A} (m : StM W A) (h : PyExc -> StM W A) : StM W A := fun w =>
  match m w with
  | (w', Ok a) => (w', Ok a)
  | (w', Raised e) => h e w'
  end.

(** A [sum] of the model's helpers, raised when it is an error. *)
Definition lift {W A} (r : sum PyExc A) : StM W A :=
  match r with inl e => raise e | inr a => ret a end.

Notation "x <- m ;; k" := (bind m (fun x => k))
  (at level 61, m at next level, right associativity) : sqlagent_scope.
Notation "m ;;; k" := (bind m (fun _ => k))
  (at level 61, right associativity) : sqlagent_scope.
Local Open Scope sqlagent_scope.

Definition log_event {S} (w : World S) (ev : Event) : World S :=
  mkWorld (w_file w) (w_conn w) (w_log w ++ [ev]).

(** [[f(x) for x in l]] with effects, left to right. *)
Fixpoint map_m {W A B} (f : A -> StM W B) (l : list A) : StM W (list B) :=
  match l with
  | [] => ret []
  | x :: r => y <- f x ;; ys <- map_m f r ;; ret (y :: ys)
  end.

(** [for x in l: acc = f(acc, x)]. *)
Fixpoint fold_m {W A B} (f : B -> A -> StM W B) (acc : B) (l : list A) : StM W B :=
  match l with
  | [] => ret acc
  | x :: r => acc' <- f acc x ;; fold_m f acc' r
  end.

(** ** The calls *)

Section Calls.
Context {S : Type} `{SqliteBackend S}.

(** The message of [TypeError] when [cursor.execute] gets a value that
    is not a [str] (the text of CPython 3.11 and later). *)
Definition execute_type_error (v : pyval) : PyExc :=
  TypeError ("execute() argument 1 must be str, not " ++ type_name v).

Definition closed_db_error : PyExc :=
  SqliteError "Cannot operate on a closed database.".

(** [sqlite3.connect(DB_PATH)]: [get_db()] of super_simple_app.py. *)
Definition db_connect : PyM S unit := fun w =>
  match be_connect (w_file w) with
  | Some msg => (w, Raised (SqliteError msg))
  | None => (mkWorld (w_file w) (Open (w_file w)) (w_log w ++ [EvConnect]), Ok tt)
  end.

(** [get_db_connection()] of simple_app.py: [return
    sqlite3.connect(DB_PATH)]; the lines after its [return] are
    [execute_sql_query_body] of [Execute], never run. *)
Definition get_db_connection : PyM S unit := db_connect.

(** [cursor.execute(sql)] on the request's connection. *)
Definition db_execute (sql : pyval) : PyM S (Cursor S) := fun w =>
  match w_conn w with
  | Open txn =>
      match sql with
      | PyStr q =>
          match be_execute txn q with
          | inl msg => (log_event w (EvExecute q), Raised (SqliteError msg))
          | inr c =>
              (mkWorld (if cur_autocommit c then cur_txn c else w_file w)
                       (Open (cur_txn c)) (w_log w ++ [EvExecute q]), Ok c)
          end
      | v => (w, Raised (execute_type_error v))
      end
  | _ => (w, Raised closed_db_error)
  end.

(** [cursor.fetchall()]. *)
Definition db_fetchall (c : Cursor S) : PyM S (list pyval) := fun w =>
  let w' := log_event w EvFetchall in
  match cur_rows c with
  | inl msg => (w', Raised (SqliteError msg))
  | inr rows => (w', Ok rows)
  end.

(** [conn.commit()]: the transaction becomes the file. *)
Definition db_commit : PyM S unit := fun w =>
  match w_conn w with
  | Open txn =>
      match be_commit txn with
      | Some msg => (log_event w EvCommit, Raised (SqliteError msg))
      | None => (mkWorld txn (Open txn) (w_log w ++ [EvCommit]), Ok tt)
      end
  | _ => (w, Raised closed_db_error)
  end.

(** [conn.close()]: what was not committed is lost. *)
Definition db_close : PyM S unit := fun w =>
  (mkWorld (w_file w) Closed (w_log w ++ [EvClose]), Ok tt).

(** [[d[0] for d in cursor.description]]. *)
Definition description_names (c : Cursor S) : PyM S (list pyval) :=
  match cur_description c with
  | Some names => ret (map PyStr names)
  | None => raise (TypeError "'NoneType' object is not iterable")
  end.

(** ** Reading without writing

    [synced w]: the connection, when open, sees the file: nothing is
    pending.  [reads_only m]: from such a world, [m] leaves the file as
    it was and nothing pending, whatever it returns or raises.
    [read_stmt q]: the backend runs [q] without changing the database. *)
Definition synced (w : World S) : Prop :=
  match w_conn w with Open txn => txn = w_file w | _ => True end.

Definition reads_only {A} (m : PyM S A) : Prop :=
  forall w, synced w -> w_file (fst (m w)) = w_file w /\ synced (fst (m w)).

Definition read_stmt (q : string) : Prop :=
  forall txn c, be_execute txn q = inr c -> cur_txn c = txn.

End Calls.

Create HintDb reads_only.

Section ReadsOnly.
Context {S : Type} `{SqliteBackend S}.

Lemma reads_only_ret {A} (a : A) : reads_only (ret a : PyM S A).
Proof. intros w Hw; split; [reflexivity|exact Hw]. Qed.

Lemma reads_only_raise {A} e : reads_only (raise e : PyM S A).
Proof. intros w Hw; split; [reflexivity|exact Hw]. Qed.

Lemma reads_only_lift {A} (r : sum PyExc A) : reads_only (lift r : PyM S A).
Proof. destruct r; [apply reads_only_raise|apply reads_only_ret]. Qed.

Lemma reads_only_bind {A B} (m : PyM S A) (k : A -> PyM S B) :
  reads_only m -> (forall a, reads_only (k a)) -> reads_only (bind m k).
Proof.
  intros Hm Hk w Hw. unfold bind. destruct (Hm w Hw) as [F1 S1].
  destruct (m w) as [w1 [a|e]]; cbn [fst] in *; [|auto].
  destruct (Hk a w1 S1) as [F2 S2]. split; [congruence|exact S2].
Qed.

Lemma reads_only_py_try {A} (m : PyM S A) (h : PyExc -> PyM S A) :
  reads_only m -> (forall e, reads_only (h e)) -> reads_only (py_try m h).
Proof.
  intros Hm Hh w Hw. unfold py_try. destruct (Hm w Hw) as [F1 S1].
  destruct (m w) as [w1 [a|e]]; cbn [fst] in *; [auto|].
  destruct (Hh e w1 S1) as [F2 S2]. split; [congruence|exact S2].
Qed.

Lemma reads_only_map_m {A B} (f : A -> PyM S B) l :
  (forall x, reads_only (f x)) -> reads_only (map_m f l).
Proof.
  intros Hf; induction l as [|x l IH]; cbn [map_m];
    eauto using reads_only_ret, reads_only_bind.
Qed.

Lemma reads_only_fold_m {A B} (f : B -> A -> PyM S B) l : forall acc,
  (forall acc x, reads_only (f acc x)) -> reads_only (fold_m f acc l).
Proof.
  induction l as [|x l IH]; intros acc Hf; cbn [fold_m];
    eauto using reads_only_ret, reads_only_bind.
Qed.

Lemma reads_only_db_connect : reads_only (@db_connect S _).
Proof.
  intros w Hw; unfold db_connect. destruct (be_connect (w_file w)); split; cbn; auto.
Qed.

Lemma reads_only_get_db_connection : reads_only (@get_db_connection S _).
Proof. exact reads_only_db_connect. Qed.

Lemma reads_only_db_execute q : read_stmt q -> reads_only (db_execute (PyStr q)).
Proof.
  intros Hq w Hw; unfold db_execute, synced in *.
  destruct (w_conn w) as [|txn|] eqn:C; [cbn; rewrite C; now split| |cbn; rewrite C; now split].
  destruct (be_execute txn q) as [msg|c] eqn:E; [unfold log_event; cbn; rewrite C; now split|].
  rewrite (Hq _ _ E); cbn. destruct (cur_autocommit c); now split.
Qed.

Lemma reads_only_db_fetchall (c : Cursor S) : reads_only (db_fetchall c).
Proof. intros w Hw; unfold db_fetchall, log_event; destruct (cur_rows c); split; cbn; auto. Qed.

Lemma reads_only_db_close : reads_only (db_close : PyM S unit).
Proof. intros w Hw; split; cbn; auto. Qed.

End ReadsOnly.

#[export] Hint Resolve reads_only_ret reads_only_raise reads_only_lift reads_only_bind
  reads_only_py_try reads_only_map_m reads_only_fold_m reads_only_db_connect
  reads_only_get_db_connection reads_only_db_execute reads_only_db_fetchall
  reads_only_db_close : reads_only.

(** Split a computation into its calls and discharge each one with the
    [reads_only] hints. *)
Ltac reads_only_tac :=
  repeat (cbv beta;
    match goal with
    | |- reads_only (bind _ _) => apply reads_only_bind; [|intros ?]
    | |- reads_only (py_try _ _) => apply reads_only_py_try; [|intros ?]
    | |- reads_only (map_m _ _) => apply reads_only_map_m; intros ?
    | |- reads_only (fold_m _ _ _) => apply reads_only_fold_m; intros ? ?
    | |- reads_only (if ?b then _ else _) => destruct b
    | |- _ => solve [auto with reads_only]
    end).

(** ** A scripted backend

    An instance of the interface used to run the handlers on concrete
    inputs: the database is an integer (its [user_version]), connections
    and commits always succeed, and the outcome of a statement is looked
    up by its text in a script; any other text fails the way SQLite
    reports a syntax error. *)

Definition script : Type := list (string * (Z -> sum string (Cursor Z))).

Fixpoint script_lookup (sc : script) (q : string) : option (Z -> sum string (Cursor Z)) :=
  match sc with
  | [] => None
  | (q', f) :: rest => if String.eqb q' q then Some f else script_lookup rest q
  end.

Definition script_backend (sc : script) : SqliteBackend Z := {|
  be_connect := fun _ => None;
  be_execute := fun db q =>
    match script_lookup sc q with
    | Some f => f db
    | None => inl "syntax error"
    end;
  be_commit := fun _ => None
|}.

(** ** Loops *)

(** A loop whose body does not touch the world computes [map]. *)
Lemma map_m_pure {W A B} (f : A -> StM W B) (g : A -> B) l (w : W) :
  (forall x, In x l -> f x w = (w, Ok (g x))) -> map_m f l w = (w, Ok (map g l)).
Proof.
  induction l as [|x l IH]; intros Hf; [reflexivity|]. cbn [map_m map].
  unfold bind at 1; rewrite (Hf x (or_introl eq_refl)).
  unfold bind; rewrite IH by (intros y Hy; apply Hf; now right). reflexivity.
Qed.

(** The loop [for x in l: acc = f(acc, x)] when every round succeeds:
    the rounds keep an invariant [P] of the world, compute [g] and
    append [ev x] to the log. *)
Lemma fold_m_spec {S A B} (f : B -> A -> PyM S B) (g : B -> A -> B) (ev : A -> list Event)
  (P : World S -> Prop) l : forall acc w,
  (forall acc x w, In x l -> P w ->
     exists w', f acc x w = (w', Ok (g acc x)) /\ w_log w' = (w_log w ++ ev x)%list /\ P w') ->
  P w ->
  exists w', fold_m f acc l w = (w', Ok (fold_left g l acc))
    /\ w_log w' = (w_log w ++ flat_map ev l)%list /\ P w'.
Proof.
  induction l as [|x l IH]; intros acc w Hf Hw.
  - exists w; repeat split; auto. symmetry; apply app_nil_r.
  - destruct (Hf acc x w (or_introl eq_refl) Hw) as [w1 [E1 [L1 P1]]].
    destruct (IH (g acc x) w1) as [w2 [E2 [L2 P2]]]; [intros; apply Hf; auto; now right|exact P1|].
    exists w2; cbn [fold_m fold_left flat_map]; unfold bind; rewrite E1, E2.
    repeat split; auto. now rewrite L2, L1, app_assoc.
Qed.

(** A loop over [l1 ++ l2] runs over [l1], then over [l2]. *)
Lemma fold_m_app {W A B} (f : B -> A -> StM W B) acc l1 l2 (w : W) :
  fold_m f acc (l1 ++ l2) w =
  match fold_m f acc l1 w with
  | (w', Ok a) => fold_m f a l2 w'
  | (w', Raised e) => (w', Raised e)
  end.
Proof.
  revert acc w; induction l1 as [|x l1 IH]; intros acc w; [reflexivity|].
  cbn [fold_m app]; unfold bind. destruct (f acc x w) as [w1 [a|e]]; [apply IH|reflexivity].
Qed.

(** ** The connection protocol *)

Inductive Phase : Type :=
| Idle        (** no connection yet *)
| Connected   (** open, no statement yet *)
| Active      (** open, a statement has run *)
| Finished.   (** closed *)

Inductive pstep : Phase -> Event -> Phase -> Prop :=
| ps_connect : pstep Idle EvConnect Connected
| ps_execute_first q : pstep Connected (EvExecute q) Active
| ps_execute_more q : pstep Active (EvExecute q) Active
| ps_fetchall : pstep Active EvFetchall Active
| ps_commit : pstep Active EvCommit Active
| ps_close_connected : pstep Connected EvClose Finished
| ps_close_active : pstep Active EvClose Finished.

(** [follows p l q]: the calls [l] take the protocol from [p] to [q]. *)
Inductive follows : Phase -> list Event -> Phase -> Prop :=
| follows_nil p : follows p [] p
| follows_cons p ev q l r : pstep p ev q -> follows q l r -> follows p (ev :: l) r.

End Sqlite.
