(* ===== verification/Init.v ===== *)
(** * Seeding the database: [init_db] and [initialize_db]

    [init_db()] of [src/super_simple_app.py] (lines 20-26) and
    [initialize_db()] of [src/simple_app.py] (lines 18-32) create the
    SQLite file from the seed script [sql_agent_seed.sql] when the file
    does not exist.  Their state is the disk: the database file (absent,
    or the database it holds), the seed file (absent, or its text), and
    the log of the calls made.  They run in the state-and-exception
    monad [StM] of [Sqlite], over this state.

    The engine is the typeclass [SqliteScript]: the database that
    [sqlite3.connect] creates for a missing file, and what
    [conn.executescript] leaves.  [executescript] first commits, then
    runs each statement of the script outside a transaction, so what a
    failing script ran before its error stays in the file.
    [sqlite3.connect] is assumed to succeed (a file the process may not
    create is not modelled). *)

From Stdlib Require Import String List Bool ZArith.
From S2P Require Import Prelude PyVal Sqlite.
Import ListNotations.
Local Open Scope string_scope.

Module Init.
Import PyVal Sqlite.
Local Open Scope sqlagent_scope.

Class SqliteScript (S : Type) := {
  be_empty : S;                                       (** the database of a new file *)
  be_executescript : S -> string -> S * option string (** the state reached, the error *)
}.

Inductive InitEvent : Type :=
| IConnect
| IOpenSeed
| IExecuteScript
| ICommit
| IClose
| IPrint (line : string).

Record Disk (S : Type) := mkDisk {
  d_db : option S;          (** [DB_PATH]: absent, or the database it holds *)
  d_seed : option string;   (** [sql_agent_seed.sql]: absent, or its text *)
  d_log : list InitEvent
}.
Arguments mkDisk {S}. Arguments d_db {S}. Arguments d_seed {S}. Arguments d_log {S}.

Section Ops.
Context {S : Type} `{SqliteScript S}.

Definition d_emit (ev : InitEvent) : StM (Disk S) unit := fun d =>
  (mkDisk (d_db d) (d_seed d) (d_log d ++ [ev]), Ok tt).

(** [os.path.exists(DB_PATH)]. *)
Definition path_exists : StM (Disk S) bool := fun d =>
  (d, Ok (match d_db d with Some _ => true | None => false end)).

(** [sqlite3.connect(DB_PATH)]: the connection sees the database of
    the file, which is created empty when it is missing. *)
Definition file_connect : StM (Disk S) S := fun d =>
  let db := match d_db d with Some x => x | None => be_empty end in
  (mkDisk (Some db) (d_seed d) (d_log d ++ [IConnect]), Ok db).

Definition seed_missing : PyExc :=
  FileNotFoundError "[Errno 2] No such file or directory: 'sql_agent_seed.sql'".

(** [open('sql_agent_seed.sql', 'r')] and [f.read()]. *)
Definition read_seed : StM (Disk S) string := fun d =>
  let d' := mkDisk (d_db d) (d_seed d) (d_log d ++ [IOpenSeed]) in
  match d_seed d with
  | Some text => (d', Ok text)
  | None => (d', Raised seed_missing)
  end.

(** [conn.executescript(script)]: the file holds what the script ran,
    also when one of its statements fails. *)
Definition executescript (conn : S) (script : string) : StM (Disk S) S := fun d =>
  let (db', err) := be_executescript conn script in
  let d' := mkDisk (Some db') (d_seed d) (d_log d ++ [IExecuteScript]) in
  match err with
  | Some msg => (d', Raised (SqliteError msg))
  | None => (d', Ok db')
  end.

(** [conn.commit()] and [conn.close()]: after [executescript] nothing is
    pending, so neither changes the file. *)
Definition conn_commit : StM (Disk S) unit := d_emit ICommit.
Definition conn_close : StM (Disk S) unit := d_emit IClose.

Definition print (line : string) : StM (Disk S) unit := d_emit (IPrint line).

(** The block both functions run when the file is missing. *)
Definition seed_db : StM (Disk S) unit :=
  conn <- file_connect ;;
  script <- read_seed ;;
  _ <- executescript conn script ;;
  conn_commit ;;;
  conn_close.

(** [init_db()] of [super_simple_app.py]. *)
Definition init_db : StM (Disk S) unit :=
  ex <- path_exists ;;
  if ex then ret tt else seed_db.

(** [initialize_db()] of [simple_app.py]: it also returns a new
    connection, which is never closed. *)
Definition initialize_db : StM (Disk S) S :=
  ex <- path_exists ;;
  (if ex then print "Database already exists."
   else print "Creating database..." ;;; seed_db ;;; print "Database created successfully!") ;;;
  file_connect.

End Ops.

(** ** Tactics *)

Ltac unfold_init :=
  cbv beta iota zeta delta [init_db initialize_db seed_db bind ret path_exists file_connect
    read_seed executescript conn_commit conn_close d_emit print] in *;
  cbn [d_db d_seed d_log] in *.

(** ** Properties *)

Section Props.
Context {S : Type} `{SqliteScript S}.

(** Whatever the outcome of [init_db], the database file exists
    afterwards. *)
Lemma init_db_file_exists (d : Disk S) : d_db (fst (init_db d)) <> None.
Proof.
  destruct d as [[x|] [t|] l]; unfold_init; try (simpl; congruence).
  destruct (be_executescript be_empty t) as [db' [msg|]]; simpl; congruence.
Qed.

(** [init_db] on an existing file does nothing. *)
Lemma init_db_existing (d : Disk S) x : d_db d = Some x -> init_db d = (d, Ok tt).
Proof. destruct d as [db t l]; cbn; intros ->. reflexivity. Qed.

(** C27: on a missing file with a seed script that runs, [init_db]
    creates the file, runs the script, commits and closes: the file
    holds the seeded database. *)
Theorem init_db_seeds_fresh (d : Disk S) script db' :
  d_db d = None -> d_seed d = Some script -> be_executescript be_empty script = (db', None) ->
  init_db d = (mkDisk (Some db') (d_seed d)
                 (d_log d ++ [IConnect; IOpenSeed; IExecuteScript; ICommit; IClose]), Ok tt).
Proof.
  destruct d as [db t l]; cbn; intros -> -> He. unfold_init. rewrite He; cbn.
  now rewrite <- !app_assoc.
Qed.

(** C28: seeding is attempted at most once: after any run of [init_db],
    failed ones included, the file exists, so a later run does nothing,
    even once the seed file is there.  A run that failed half-way
    (missing seed file, failing statement) is never repaired. *)
Theorem init_db_runs_once (d : Disk S) seed :
  let d1 := fst (init_db d) in
  init_db (mkDisk (d_db d1) seed (d_log d1)) = (mkDisk (d_db d1) seed (d_log d1), Ok tt).
Proof.
  intros d1. destruct (d_db d1) as [x|] eqn:E.
  - apply (init_db_existing _ x). reflexivity.
  - exfalso; exact (init_db_file_exists d E).
Qed.

(** C29: a missing seed file is found only after [sqlite3.connect] has
    created the database file: [init_db] raises [FileNotFoundError]
    and leaves an empty database behind. *)
Theorem init_db_missing_seed (d : Disk S) :
  d_db d = None -> d_seed d = None ->
  init_db d = (mkDisk (Some be_empty) None (d_log d ++ [IConnect; IOpenSeed]), Raised seed_missing).
Proof. destruct d as [db t l]; cbn; intros -> ->. unfold_init. now rewrite <- app_assoc. Qed.

End Props.

(** ** Runs on a scripted engine

    The database is a number of seeded tables; the seed script is the
    one text the engine runs. *)

Definition demo_seed : string := "CREATE TABLE customers (id INTEGER PRIMARY KEY, name TEXT);".

Definition demo_engine : SqliteScript nat := {|
  be_empty := 0;
  be_executescript := fun db script =>
    if String.eqb script demo_seed then (S db, None) else (db, Some "syntax error")
|}.

Lemma init_db_seeds_fresh_witness :
  @init_db nat demo_engine (mkDisk None (Some demo_seed) [])
  = (mkDisk (Some 1) (Some demo_seed) [IConnect; IOpenSeed; IExecuteScript; ICommit; IClose], Ok tt).
Proof. exact (@init_db_seeds_fresh nat demo_engine (mkDisk None (Some demo_seed) []) demo_seed 1 eq_refl eq_refl eq_refl). Defined.

Lemma init_db_missing_seed_witness :
  @init_db nat demo_engine (mkDisk None None [])
  = (mkDisk (Some 0) None [IConnect; IOpenSeed], Raised seed_missing).
Proof. exact (@init_db_missing_seed nat demo_engine (mkDisk None None []) eq_refl eq_refl). Defined.

End Init.
