(* ===== verification/Execute.v ===== *)
(** * Running a query: [run_sql] and [execute_sql_query]

    [run_sql] is lines 29-55 of [src/super_simple_app.py]: inside one
    [try], the safe-mode gate (the [Gate] component), then
    [get_db()], [cursor.execute(sql)] and one of two branches chosen by
    [sql.strip().upper().startswith('SELECT')]: fetch the rows and the
    column names and close, or commit and close and report the row
    count.  Any exception becomes [{"success": False, "error": str(e)}].

    [execute_sql_query_body] is lines 37-99 of [src/simple_app.py], the
    same algorithm with other messages.  In that file these lines sit
    after the [return] of [get_db_connection] and are never run, and no
    function [execute_sql_query] exists (the [Api] component shows what
    the endpoint does instead); the body is modelled because it is the
    function the endpoint means to call.

    Both are built from [gate_step] (the [if safe:] block) and
    [statement_step] (the statement and its branches), parameterised by
    the response dictionaries each file builds.  [adapter] and
    [pipeline] state the decomposition of section 4 of the spec (Query
    Gate, Execution Adapter, Response Normalizer), which both runners
    refine (C25).  The demo script at the end is the database the
    witnesses run on. *)

From Stdlib Require Import String Ascii List Bool ZArith Lia.
From S2P Require Import Prelude PyStr Gate PyVal Sqlite.
Import ListNotations.
Local Open Scope string_scope.

Module Execute.
Import PyStr Gate PyVal Sqlite.
Local Open Scope sqlagent_scope.

(** ** Responses *)

Definition success_field (b : bool) : string * pyval := ("success", PyBool b).

(** [super_simple_app.py]. *)
Definition ss_blocked (r : RejectReason) : pyval :=
  match r with
  | DangerousKeyword =>
      PyDict [success_field false; ("error", PyStr "Dangerous operations blocked")]
  | MultipleStatements =>
      PyDict [success_field false; ("error", PyStr "Multiple statements blocked")]
  end.

Definition ss_rows (columns rows : list pyval) : pyval :=
  PyDict [success_field true;
          ("data", PyDict [("columns", PyList columns); ("rows", PyList rows)])].

Definition ss_affected (n : Z) : pyval :=
  PyDict [success_field true; ("data", PyDict [("affected", PyInt n)])].

Definition ss_failed (e : PyExc) : pyval :=
  PyDict [success_field false; ("error", PyStr (exc_str e))].

(** [simple_app.py]. *)
Definition s_blocked (r : RejectReason) : pyval :=
  match r with
  | DangerousKeyword =>
      PyDict [success_field false;
              ("error", PyStr "Dangerous operations not allowed in safe mode");
              ("message", PyStr "Only SELECT queries are permitted")]
  | MultipleStatements =>
      PyDict [success_field false;
              ("error", PyStr "Multiple statements not allowed");
              ("message", PyStr "Only single SELECT statements permitted")]
  end.

Definition s_rows (columns rows : list pyval) : pyval :=
  PyDict [success_field true;
          ("data", PyDict [("columns", PyList columns); ("rows", PyList rows)]);
          ("message", PyStr ("Query executed successfully - "
                             ++ str_of_Z (Z.of_nat (length rows)) ++ " rows returned"))].

Definition s_affected (n : Z) : pyval :=
  PyDict [success_field true;
          ("data", PyDict [("affected_rows", PyInt n)]);
          ("message", PyStr ("Query executed - " ++ str_of_Z n ++ " rows affected"))].

Definition s_failed (e : PyExc) : pyval :=
  PyDict [success_field false; ("error", PyStr (exc_str e));
          ("message", PyStr "SQL execution failed")].

(** ** The steps *)

(** [sql.strip().upper().startswith('SELECT')]. *)
Definition is_select (sql : pyval) : sum PyExc bool :=
  match sql with
  | PyStr s => inr (upper_startswith "SELECT" (strip s))
  | v => inl (no_attribute v "strip")
  end.

Section Steps.
Context {S : Type} `{SqliteBackend S}.

(** [if safe: ...]: [inl] is a response returned at once, [inr] the
    text to run. *)
Definition gate_step (blocked : RejectReason -> pyval) (sql : pyval) (safe : bool)
  : PyM S (sum pyval pyval) :=
  if safe then
    match sql with
    | PyStr s =>
        match safe_gate s with
        | Reject r => ret (inl (blocked r))
        | Allow t => ret (inr (PyStr t))
        end
    | v => raise (no_attribute v "strip")
    end
  else ret (inr sql).

(** From [get_db()] to the returned dictionary. *)
Definition statement_step (rows_resp : list pyval -> list pyval -> pyval)
  (affected_resp : Z -> pyval) (sql : pyval) : PyM S pyval :=
  db_connect ;;;
  c <- db_execute sql ;;
  sel <- lift (is_select sql) ;;
  if sel then
    rows <- db_fetchall c ;;
    columns <- description_names c ;;
    db_close ;;;
    ret (rows_resp columns rows)
  else
    db_commit ;;;
    db_close ;;;
    ret (affected_resp (cur_rowcount c)).

(** [run_sql(sql, safe)] of [super_simple_app.py]. *)
Definition run_sql (sql : pyval) (safe : bool) : PyM S pyval :=
  py_try
    (r <- gate_step ss_blocked sql safe ;;
     match r with
     | inl resp => ret resp
     | inr q => statement_step ss_rows ss_affected q
     end)
    (fun e => ret (ss_failed e)).

(** The body of [execute_sql_query(sql, safe_mode)] in [simple_app.py]. *)
Definition execute_sql_query_body (sql : pyval) (safe_mode : bool) : PyM S pyval :=
  py_try
    (r <- gate_step s_blocked sql safe_mode ;;
     match r with
     | inl resp => ret resp
     | inr q => statement_step s_rows s_affected q
     end)
    (fun e => ret (s_failed e)).

End Steps.

(** ** The pipeline of the spec

    Section 4 of the spec splits a request into the Query Gate, the
    Execution Adapter ([execute(finalSql) -> ExecutionResult], which
    catches every exception) and the Response Normalizer.  [adapter]
    and [pipeline] state that decomposition over the same calls. *)

Inductive ExecutionResult : Type :=
| Rows (columns : list pyval) (rows : list pyval)
| Affected (count : Z)
| ExecutionFailure (e : PyExc).   (** the message is [exc_str e] *)

Section Pipeline.
Context {S : Type} `{SqliteBackend S}.

Definition adapter (q : string) : PyM S ExecutionResult :=
  py_try
    (db_connect ;;;
     c <- db_execute (PyStr q) ;;
     if upper_startswith "SELECT" (strip q) then
       rows <- db_fetchall c ;;
       columns <- description_names c ;;
       db_close ;;;
       ret (Rows columns rows)
     else
       db_commit ;;;
       db_close ;;;
       ret (Affected (cur_rowcount c)))
    (fun e => ret (ExecutionFailure e)).

Definition pipeline (blocked : RejectReason -> pyval) (normalize : ExecutionResult -> pyval)
  (safe : bool) (sql : string) : PyM S pyval :=
  match gate safe sql with
  | Reject r => ret (blocked r)
  | Allow t => r <- adapter t ;; ret (normalize r)
  end.

End Pipeline.

Definition ss_normalize (r : ExecutionResult) : pyval :=
  match r with
  | Rows columns rows => ss_rows columns rows
  | Affected n => ss_affected n
  | ExecutionFailure e => ss_failed e
  end.

Definition s_normalize (r : ExecutionResult) : pyval :=
  match r with
  | Rows columns rows => s_rows columns rows
  | Affected n => s_affected n
  | ExecutionFailure e => s_failed e
  end.

(** ** Observations on an outcome *)

(** The response shape every branch builds: [success] first, a [str]
    [error] when it is false, a [data] entry when it is true. *)
Definition well_formed_response (v : pyval) : bool :=
  match v with
  | PyDict (("success", PyBool true) :: rest) =>
      match dict_lookup rest "data" with Some _ => true | None => false end
  | PyDict (("success", PyBool false) :: rest) =>
      match dict_lookup rest "error" with Some (PyStr _) => true | _ => false end
  | _ => false
  end.

Definition response_success (v : pyval) : bool :=
  match v with
  | PyDict (("success", PyBool b) :: _) => b
  | _ => false
  end.

(** The statements a list of calls executes. *)
Definition executed (l : list Event) : list string :=
  flat_map (fun ev => match ev with EvExecute q => [q] | _ => [] end) l.

(** ** Tactics *)

(** Unfold the handlers and the calls, and split on every answer of the
    backend and every test of the code, until the outcome is computed. *)
Ltac unfold_calls :=
  cbv beta iota zeta delta [run_sql execute_sql_query_body py_try bind ret raise lift
    gate_step statement_step db_connect db_execute db_fetchall db_commit db_close
    description_names log_event is_select] in *;
  cbn [w_file w_conn w_log] in *.

Ltac run_calls :=
  unfold_calls;
  repeat (match goal with
          | |- context [be_connect ?s] => destruct (be_connect s) eqn:?
          | |- context [be_execute ?t ?q] => destruct (be_execute t q) eqn:?
          | |- context [cur_rows ?c] => destruct (cur_rows c) eqn:?
          | |- context [cur_description ?c] => destruct (cur_description c) eqn:?
          | |- context [be_commit ?t] => destruct (be_commit t) eqn:?
          | |- context [safe_gate ?s] => destruct (safe_gate s) as [?|[]] eqn:?
          | |- context [upper_startswith ?x ?s] => destruct (upper_startswith x s) eqn:?
          end; unfold_calls).

(** Close a goal [exists ..., (w', o) = (?w, ?o) /\ ...] whose outcome
    is computed, with the new calls appended to the log. *)
Ltac log_suffix :=
  first [symmetry; apply app_nil_r | rewrite <- ?app_assoc; reflexivity].

(** Close the first two conjuncts [run ... = (w', Ok r)] and
    [w_log w' = w_log w ++ l] of a goal whose outcome is computed. *)
Ltac outcome_log_split := (split; [reflexivity|]); (split; [log_suffix|]).

Ltac finish_outcome :=
  repeat eexists; try log_suffix; try reflexivity; try (simpl; congruence).

(** ** Properties of [run_sql] *)

Section RunSql.
Context {S : Type} `{SqliteBackend S}.

(** C7: a request the safe-mode gate rejects never reaches the
    database: the world (file, connection, log of calls) is unchanged
    and the response is the gate's message. *)
Theorem run_sql_rejected s r (w : World S) :
  safe_gate s = Reject r -> run_sql (PyStr s) true w = (w, Ok (ss_blocked r)).
Proof. intros Hg. unfold_calls. now rewrite Hg. Qed.

(** C8: [run_sql] never lets an exception escape: whatever the value
    of [sql], the mode and the answers of the database, it returns a
    dictionary with a boolean [success], a [str] [error] when it is
    false and a [data] entry when it is true. *)
Theorem run_sql_total (v : pyval) (b : bool) (w : World S) :
  exists w' resp, run_sql v b w = (w', Ok resp) /\ well_formed_response resp = true.
Proof. destruct b, v; run_calls; finish_outcome. Qed.

(** C9: the calls of [run_sql] follow the connection protocol, and the
    connection ends closed exactly when the response reports success: on
    every failure after [get_db()] the connection is left open, since
    [conn.close()] is not in a [finally] clause. *)
Theorem run_sql_protocol (v : pyval) (b : bool) (w : World S) :
  exists l p w' resp,
    run_sql v b w = (w', Ok resp) /\ w_log w' = (w_log w ++ l)%list
    /\ follows Idle l p /\ (p = Finished <-> response_success resp = true).
Proof.
  destruct b, v; run_calls;
    do 4 eexists; outcome_log_split;
    (split; [repeat econstructor|]); simpl; split; congruence.
Qed.

(** C10: when the database opens, [run_sql] executes exactly one
    statement, the text the gate decided: the cleaned text, with
    " LIMIT 100" when needed, in safe mode, and the raw text otherwise. *)
Theorem run_sql_executes_gate_output (b : bool) (s t : string) (w : World S) :
  be_connect (w_file w) = None -> gate b s = Allow t ->
  exists w' resp l, run_sql (PyStr s) b w = (w', Ok resp)
    /\ w_log w' = (w_log w ++ l)%list /\ executed l = [t].
Proof.
  intros Hc Hg; destruct b; simpl in Hg; [|injection Hg as <-];
    run_calls; try congruence;
    repeat match goal with H : Allow _ = Allow _ |- _ => injection H as <- end;
    finish_outcome.
Qed.

(** C12: the error path: when [cursor.execute] fails, the response
    carries the database's message verbatim, the failing statement is
    the last call, and the connection stays open. *)
Theorem run_sql_execute_error (b : bool) (s t msg : string) (w : World S) :
  be_connect (w_file w) = None -> gate b s = Allow t -> be_execute (w_file w) t = inl msg ->
  run_sql (PyStr s) b w =
    (mkWorld (w_file w) (Open (w_file w)) (w_log w ++ [EvConnect; EvExecute t]),
     Ok (ss_failed (SqliteError msg))).
Proof.
  intros Hc Hg He; destruct b; simpl in Hg; [|injection Hg as <-];
    unfold_calls; [rewrite Hg|]; cbv beta iota; unfold_calls; rewrite Hc; unfold_calls;
    rewrite He; now rewrite <- app_assoc.
Qed.

(** C13: [conn.commit()] is called only for a statement that does not
    start with SELECT: a query that does is never committed. *)
Theorem run_sql_commit_only_non_select (v : pyval) (b : bool) (w : World S) :
  exists l w' resp, run_sql v b w = (w', Ok resp) /\ w_log w' = (w_log w ++ l)%list
    /\ (In EvCommit l ->
        exists q, executed l = [q] /\ upper_startswith "SELECT" (strip q) = false).
Proof.
  destruct b, v; run_calls;
    do 3 eexists; outcome_log_split;
    simpl; intros Hin; repeat destruct Hin as [Hin|Hin]; try discriminate; try contradiction;
    (eexists; split; [reflexivity|assumption]).
Qed.

(** C26: no retries: one run of [run_sql] makes at most four calls to
    [sqlite3] (connect, execute, fetch or commit, close) and executes
    at most one statement, whatever the text, mode and database. *)
Theorem run_sql_call_bound (v : pyval) (b : bool) (w : World S) :
  exists l w' r, run_sql v b w = (w', Ok r) /\ w_log w' = (w_log w ++ l)%list
    /\ length l <= 4 /\ length (executed l) <= 1.
Proof. destruct b, v; run_calls; do 3 eexists; outcome_log_split; simpl; lia. Qed.

(** C25: both runners refine the spec's pipeline: on a [str], each is
    the gate, then the Execution Adapter with its own [try], then the
    normalisation of the result into that file's response shape. *)
Theorem runners_refine_pipeline s b (w : World S) :
  run_sql (PyStr s) b w = pipeline ss_blocked ss_normalize b s w
  /\ execute_sql_query_body (PyStr s) b w = pipeline s_blocked s_normalize b s w.
Proof.
  destruct b; cbv beta iota zeta delta [pipeline gate adapter]; run_calls; split; reflexivity.
Qed.

(** C22: safe mode does not restrict the kind of statement: a text
    with no blocked keyword and no [;] that already has a LIMIT clause
    anywhere (a comment "-- limit 1" counts) passes the gate unchanged;
    when it does not start with SELECT it is executed and committed, so
    the database file becomes the state the statement left. *)
Theorem safe_mode_commits_non_select s c (w : World S) :
  ~ has_blocked_word (clean s) -> contains_char ";"%char (clean s) = false -> limit_clause (clean s) ->
  upper_startswith "SELECT" (strip (clean s)) = false ->
  be_connect (w_file w) = None -> be_execute (w_file w) (clean s) = inr c ->
  be_commit (cur_txn c) = None ->
  run_sql (PyStr s) true w =
    (mkWorld (cur_txn c) Closed (w_log w ++ [EvConnect; EvExecute (clean s); EvCommit; EvClose]),
     Ok (ss_affected (cur_rowcount c))).
Proof.
  intros Hb Hs Hl Hsel Hc He Hm.
  assert (Hg : safe_gate s = Allow (clean s)).
  { unfold safe_gate. rewrite (proj1 (not_blocked_word_iff _) Hb), Hs.
    now rewrite (proj2 (re_search_limit _) Hl). }
  unfold_calls; rewrite Hg; unfold_calls; rewrite Hc; unfold_calls; rewrite He; unfold_calls.
  rewrite Hsel; unfold_calls; rewrite Hm; unfold_calls. now rewrite <- !app_assoc.
Qed.

(** In safe mode every statement [run_sql] sends is the gate's output
    for the text it was given. *)
Lemma run_sql_safe_executed (v : pyval) (w : World S) :
  exists l w' r, run_sql v true w = (w', Ok r) /\ w_log w' = (w_log w ++ l)%list
    /\ forall q, In q (executed l) -> exists s, v = PyStr s /\ safe_gate s = Allow q.
Proof.
  destruct v; run_calls; do 3 eexists; outcome_log_split; intros q Hq; cbn in Hq;
    intuition (subst; eauto).
Qed.

End RunSql.

(** ** Runs on a scripted database

    The scripted backend of [Sqlite] with the statements the witnesses
    below send; the database is its [user_version], 0 at the start. *)

Definition customers_cursor (db : Z) : Cursor Z :=
  mkCursor db true (inr [PyTuple [PyInt 1; PyStr "Alice"]; PyTuple [PyInt 2; PyStr "Bob"]])
           (Some ["id"; "name"]) (-1).

Definition blob_cursor (db : Z) : Cursor Z :=
  mkCursor db true (inr [PyTuple [PyBytes [Byte.x00; Byte.xff]]]) (Some ["data"]) (-1).

Definition demo_script : script := [
  ("SELECT * FROM customers LIMIT 100", fun db => inr (customers_cursor db));
  ("SELECT data FROM blobs LIMIT 100", fun db => inr (blob_cursor db));
  ("SELECT * FROM ordrs LIMIT 100", fun _ => inl "no such table: ordrs");
  ("PRAGMA user_version = 5 -- limit 1", fun _ => inr (mkCursor 5%Z true (inr []) None (-1)))].

Definition demo : SqliteBackend Z := script_backend demo_script.
Definition demo_world : World Z := mkWorld 0%Z NoConn [].

Lemma run_sql_rejected_witness :
  safe_gate "DROP TABLE products" = Reject DangerousKeyword
  /\ @run_sql Z demo (PyStr "DROP TABLE products") true demo_world
     = (demo_world, Ok (ss_blocked DangerousKeyword)).
Proof. split; [vm_compute; reflexivity|apply run_sql_rejected; vm_compute; reflexivity]. Defined.

Lemma run_sql_executes_gate_output_witness :
  gate true "  SELECT * FROM customers;; " = Allow "SELECT * FROM customers LIMIT 100"
  /\ exists w' resp l,
    @run_sql Z demo (PyStr "  SELECT * FROM customers;; ") true demo_world = (w', Ok resp)
    /\ w_log w' = (w_log demo_world ++ l)%list /\ executed l = ["SELECT * FROM customers LIMIT 100"].
Proof.
  split; [vm_compute; reflexivity|].
  apply (@run_sql_executes_gate_output Z demo); [reflexivity|vm_compute; reflexivity].
Defined.

Lemma run_sql_execute_error_witness :
  gate true "SELECT * FROM ordrs" = Allow "SELECT * FROM ordrs LIMIT 100"
  /\ @run_sql Z demo (PyStr "SELECT * FROM ordrs") true demo_world =
     (mkWorld 0%Z (Open 0%Z) [EvConnect; EvExecute "SELECT * FROM ordrs LIMIT 100"],
      Ok (ss_failed (SqliteError "no such table: ordrs"))).
Proof.
  split; [vm_compute; reflexivity|].
  rewrite (@run_sql_execute_error Z demo true "SELECT * FROM ordrs" "SELECT * FROM ordrs LIMIT 100"
             "no such table: ordrs" demo_world); [reflexivity|reflexivity|vm_compute; reflexivity|reflexivity].
Defined.

Lemma safe_mode_commits_non_select_witness :
  let s := "PRAGMA user_version = 5 -- limit 1" in
  ~ has_blocked_word (clean s) /\ contains_char ";"%char (clean s) = false /\ limit_clause (clean s)
  /\ upper_startswith "SELECT" (strip (clean s)) = false
  /\ @run_sql Z demo (PyStr s) true demo_world =
     (mkWorld 5%Z Closed [EvConnect; EvExecute s; EvCommit; EvClose], Ok (ss_affected (-1))).
Proof.
  intros s.
  assert (Hb : ~ has_blocked_word (clean s)) by (apply not_blocked_word_iff; vm_compute; reflexivity).
  assert (Hl : limit_clause (clean s)) by (apply re_search_limit; vm_compute; reflexivity).
  split; [exact Hb|split; [reflexivity|split; [exact Hl|split; [reflexivity|]]]].
  apply (@safe_mode_commits_non_select Z demo s (mkCursor 5%Z true (inr []) None (-1)));
    try assumption; reflexivity.
Defined.

End Execute.
