(* ===== verification/Api.v ===== *)
(** * The HTTP endpoints

    The Flask views of both files, as [PyM] computations returning an
    HTTP response: [flask_view] turns an exception that escapes the view
    into a 500 response, as Flask does, and [jsonify_m] is [jsonify],
    which raises [TypeError] on [bytes].

    - [ss_execute]: [execute()] of [src/super_simple_app.py] (lines 61-70).
    - [s_api_execute]: [api_execute()] of [src/simple_app.py] (lines
      143-158); it calls [execute_sql_query], a name the module never
      defines, so a non-blank query ends in [NameError].
    - [ss_schema]: [schema()] of [super_simple_app.py] (lines 72-89);
      [s_get_schema] and [s_api_schema]: [get_schema()] and
      [api_schema()] of [simple_app.py] (lines 101-141).
    - [ss_samples_data], [s_samples_data]: the catalogues of
      [/api/samples] (lines 91-107 and 160-178).

    The request body is the value [request.get_json()] returned. *)

From Stdlib Require Import String List Bool ZArith.
From S2P Require Import Prelude PyStr Gate PyVal Sqlite Execute.
Import ListNotations.
Local Open Scope string_scope.

Module Api.
Import PyStr Gate PyVal Sqlite Execute.
Local Open Scope sqlagent_scope.

Inductive http_response : Type :=
| Http200 (body : json)
| Http500 (e : PyExc).

(** [d.get] on the request body: only a [dict] has it. *)
Definition as_dict (v : pyval) : sum PyExc (list (string * pyval)) :=
  match v with
  | PyDict kvs => inr kvs
  | _ => inl (no_attribute v "get")
  end.

(** [sql.strip()] on a value of the body. *)
Definition strip_value (v : pyval) : sum PyExc string :=
  match v with
  | PyStr s => inr (strip s)
  | _ => inl (no_attribute v "strip")
  end.

(** A table name read from [sqlite_master]: its [name] column is [TEXT],
    so the value is a [str]; another value is refused. *)
Definition table_key (v : pyval) : sum PyExc string :=
  match v with
  | PyStr s => inr s
  | _ => inl (TypeError "table name is not a str")
  end.

Definition master_query : string := "SELECT name FROM sqlite_master WHERE type='table'".

(** [f"PRAGMA table_info({table})"]. *)
Definition pragma_query (table : string) : string := "PRAGMA table_info(" ++ table ++ ")".

(** ** The sample catalogues *)

Definition sample (name sql : string) : pyval :=
  PyDict [("name", PyStr name); ("sql", PyStr sql)].

Definition ss_samples_data : pyval :=
  PyDict [
    ("basic", PyList [
       sample "All Customers" "SELECT * FROM customers";
       sample "All Products" "SELECT * FROM products";
       sample "Recent Orders" "SELECT * FROM orders ORDER BY order_date DESC"]);
    ("analytics", PyList [
       sample "Revenue by Customer" "SELECT c.name, SUM(oi.quantity * oi.unit_price_cents)/100 as revenue FROM customers c JOIN orders o ON c.id = o.customer_id JOIN order_items oi ON o.id = oi.order_id GROUP BY c.id";
       sample "Product Performance" "SELECT p.name, COUNT(*) as orders FROM products p JOIN order_items oi ON p.id = oi.product_id GROUP BY p.id"]);
    ("dangerous", PyList [
       sample "Delete (Blocked)" "DELETE FROM customers WHERE id = 1";
       sample "Drop (Blocked)" "DROP TABLE products"])].

Definition s_samples_data : pyval :=
  PyDict [
    ("basic", PyList [
       sample "All Customers" "SELECT * FROM customers";
       sample "All Products" "SELECT * FROM products";
       sample "Recent Orders" "SELECT * FROM orders ORDER BY order_date DESC"]);
    ("analytics", PyList [
       sample "Customer Revenue" "SELECT c.name, SUM(oi.quantity * oi.unit_price_cents)/100.0 as revenue FROM customers c JOIN orders o ON c.id = o.customer_id JOIN order_items oi ON o.id = oi.order_id GROUP BY c.id";
       sample "Product Sales" "SELECT p.name, COUNT(*) as orders, SUM(oi.quantity) as units FROM products p JOIN order_items oi ON p.id = oi.product_id GROUP BY p.id"]);
    ("dangerous", PyList [
       sample "Delete Customer (Blocked)" "DELETE FROM customers WHERE id = 1";
       sample "Drop Table (Blocked)" "DROP TABLE products"])].

Section Views.
Context {S : Type} `{SqliteBackend S}.

(** Flask: an exception that leaves the view is a 500 response. *)
Definition flask_view (m : PyM S http_response) : PyM S http_response :=
  py_try m (fun e => ret (Http500 e)).

Definition jsonify_m (v : pyval) : PyM S http_response :=
  match jsonify v with
  | Some j => ret (Http200 j)
  | None => raise (TypeError "Object of type bytes is not JSON serializable")
  end.

(** ** [/api/execute] *)

(** [execute()] of [super_simple_app.py]. *)
Definition ss_execute (data : pyval) : PyM S http_response :=
  flask_view (
    kvs <- lift (as_dict data) ;;
    let sql := dict_get kvs "sql" (PyStr "") in
    let safe := eq_str_lit (dict_get kvs "security_level" (PyStr "safe")) "safe" in
    if negb (truthy sql) then
      jsonify_m (PyDict [success_field false; ("error", PyStr "No SQL provided")])
    else
      result <- run_sql sql safe ;;
      jsonify_m result).

(** [api_execute()] of [simple_app.py]. *)
Definition s_api_execute (data : pyval) : PyM S http_response :=
  flask_view (
    kvs <- lift (as_dict data) ;;
    let sql := dict_get kvs "sql" (PyStr "") in
    let safe_mode := eq_str_lit (dict_get kvs "security_level" (PyStr "safe")) "safe" in
    stripped <- lift (strip_value sql) ;;
    if String.eqb stripped "" then
      jsonify_m (PyDict [success_field false; ("error", PyStr "Empty query");
                         ("message", PyStr "Please enter a SQL query")])
    else
      raise (NameError "name 'execute_sql_query' is not defined")).

(** ** [/api/schema] *)

(** [[{"name": c[1], "type": c[2]} for c in cols]]. *)
Definition ss_column (c : pyval) : PyM S pyval :=
  name <- lift (py_index c 1) ;;
  type_ <- lift (py_index c 2) ;;
  ret (PyDict [("name", name); ("type", type_)]).

(** One round of [for table in tables:]. *)
Definition ss_schema_table (acc : list (string * pyval)) (table : pyval)
  : PyM S (list (string * pyval)) :=
  name <- lift (table_key table) ;;
  c2 <- db_execute (PyStr (pragma_query name)) ;;
  cols <- db_fetchall c2 ;;
  entry <- map_m ss_column cols ;;
  ret (dict_set acc name (PyList entry)).

Definition ss_schema_body : PyM S (list (string * pyval)) :=
  db_connect ;;;
  c <- db_execute (PyStr master_query) ;;
  rows <- db_fetchall c ;;
  tables <- map_m (fun t => lift (py_index t 0)) rows ;;
  schema_data <- fold_m ss_schema_table [] tables ;;
  db_close ;;;
  ret schema_data.

(** [schema()] of [super_simple_app.py]: [jsonify] is inside the [try]. *)
Definition ss_schema : PyM S http_response :=
  flask_view (
    py_try (schema_data <- ss_schema_body ;; jsonify_m (PyDict schema_data))
           (fun e => jsonify_m (PyDict [("error", PyStr (exc_str e))]))).

(** The column entry of [get_schema()] in [simple_app.py]. *)
Definition s_column (col : pyval) : PyM S pyval :=
  name <- lift (py_index col 1) ;;
  type_ <- lift (py_index col 2) ;;
  notnull <- lift (py_index col 3) ;;
  pk <- lift (py_index col 5) ;;
  ret (PyDict [("name", name); ("type", type_);
               ("not_null", PyBool (truthy notnull));
               ("primary_key", PyBool (truthy pk))]).

(** One round of the loop of [get_schema()]. *)
Definition s_schema_table (acc : list (string * pyval)) (table : pyval)
  : PyM S (list (string * pyval)) :=
  table_name <- lift (py_index table 0) ;;
  name <- lift (table_key table_name) ;;
  c2 <- db_execute (PyStr (pragma_query name)) ;;
  columns <- db_fetchall c2 ;;
  entry <- map_m s_column columns ;;
  ret (dict_set acc name (PyList entry)).

(** [get_schema()] of [simple_app.py]. *)
Definition s_get_schema : PyM S pyval :=
  py_try (
    get_db_connection ;;;
    c <- db_execute (PyStr master_query) ;;
    tables <- db_fetchall c ;;
    schema <- fold_m s_schema_table [] tables ;;
    db_close ;;;
    ret (PyDict schema))
  (fun e => ret (PyDict [("error", PyStr (exc_str e))])).

(** [api_schema()]: [jsonify] is outside any [try]. *)
Definition s_api_schema : PyM S http_response :=
  flask_view (schema <- s_get_schema ;; jsonify_m schema).

(** ** [/api/samples] *)

Definition ss_samples : PyM S http_response := flask_view (jsonify_m ss_samples_data).
Definition s_api_samples : PyM S http_response := flask_view (jsonify_m s_samples_data).

End Views.

(** The calls [schema()] makes when every statement succeeds. *)
Definition schema_calls (tables : list string) : list Event :=
  [EvConnect; EvExecute master_query; EvFetchall]
  ++ flat_map (fun t => [EvExecute (pragma_query t); EvFetchall]) tables
  ++ [EvClose].

(** The entry [{"name": c[1], "type": c[2]}] of a row of [table_info]. *)
Definition ss_entry (col : pyval) : pyval :=
  match col with
  | PyTuple (_ :: n :: ty :: _) => PyDict [("name", n); ("type", ty)]
  | _ => PyNone
  end.

Definition info_row (col : pyval) : Prop :=
  exists cid n ty rest, col = PyTuple (cid :: n :: ty :: rest).

(** The dictionary [schema()] builds. *)
Definition schema_dict (info : string -> list pyval) (tables : list string)
  : list (string * pyval) :=
  fold_left (fun acc t => dict_set acc t (PyList (map ss_entry (info t)))) tables [].

(** The entry [get_schema()] of [simple_app.py] builds from a row of
    [table_info]: [name], [type], [bool(col[3])] and [bool(col[5])]. *)
Definition s_entry (col : pyval) : pyval :=
  match col with
  | PyTuple (_ :: n :: ty :: nn :: _ :: pk :: _) =>
      PyDict [("name", n); ("type", ty); ("not_null", PyBool (truthy nn));
              ("primary_key", PyBool (truthy pk))]
  | _ => PyNone
  end.

(** A row of [table_info] as SQLite returns it: six columns. *)
Definition info_row6 (col : pyval) : Prop :=
  exists cid n ty nn dflt pk rest, col = PyTuple (cid :: n :: ty :: nn :: dflt :: pk :: rest).

(** The dictionary [get_schema()] builds. *)
Definition s_schema_dict (info : string -> list pyval) (tables : list string)
  : list (string * pyval) :=
  fold_left (fun acc t => dict_set acc t (PyList (map s_entry (info t)))) tables [].

(** ** Tactics *)

Ltac unfold_views :=
  cbv beta iota zeta delta [ss_execute s_api_execute flask_view jsonify_m as_dict
    strip_value ss_schema s_api_schema s_get_schema ss_schema_body ss_schema_table
    s_schema_table] in *;
  unfold_calls.

Ltac run_views :=
  unfold_views;
  repeat (match goal with
          | |- context [be_connect ?s] => destruct (be_connect s) eqn:?
          | |- context [be_execute ?t ?q] => destruct (be_execute t q) eqn:?
          | |- context [cur_rows ?c] => destruct (cur_rows c) eqn:?
          | |- context [cur_description ?c] => destruct (cur_description c) eqn:?
          | |- context [be_commit ?t] => destruct (be_commit t) eqn:?
          | |- context [safe_gate ?s] => destruct (safe_gate s) as [?|[]] eqn:?
          | |- context [upper_startswith ?x ?s] => destruct (upper_startswith x s) eqn:?
          | |- context [jsonify ?v] => destruct (jsonify v) eqn:?
          | |- context [String.eqb ?a ?a] => rewrite String.eqb_refl
          end; unfold_views).

(** A text of white space only is cleaned to the empty text, which the
    gate lets through with the clause appended. *)
Lemma safe_gate_blank s :
  all_chars is_space s = true -> safe_gate s = Allow " LIMIT 100".
Proof.
  intros Hs. unfold safe_gate, clean. rewrite (proj2 (strip_empty_iff s) Hs). reflexivity.
Qed.

Lemma truthy_nonempty_str s : s <> EmptyString -> truthy (PyStr s) = true.
Proof. intros Hs. simpl. destruct (String.eqb_spec s ""); [contradiction|reflexivity]. Qed.

(** A response whose rows cannot be serialised cannot be serialised. *)
Lemma jsonify_ss_rows_none cols rows :
  jsonify (PyList rows) = None -> jsonify (ss_rows cols rows) = None.
Proof.
  intros H. simpl in *. destruct (seq_map_opt jsonify rows); [discriminate|].
  destruct (seq_map_opt jsonify cols); reflexivity.
Qed.

(** ** The loop of [schema()] *)

(** The rows [sqlite_master] gives for the tables [ts]. *)
Definition master_rows (ts : list string) : list pyval := map (fun t => PyTuple [PyStr t]) ts.

Section SchemaLoop.
Context {S : Type} `{SqliteBackend S}.

(** [PRAGMA table_info(t)] succeeds on the open transaction [txn],
    leaves it as it was and returns the rows [cols]. *)
Definition pragma_ok (txn : S) (t : string) (cols : list pyval) : Prop :=
  exists c, be_execute txn (pragma_query t) = inr c /\ cur_txn c = txn
            /\ cur_rows c = inr cols /\ Forall info_row cols.

Lemma ss_column_info col (w : World S) : info_row col -> ss_column col w = (w, Ok (ss_entry col)).
Proof. intros [cid [n [ty [rest ->]]]]. reflexivity. Qed.

Lemma master_rows_index ts (w : World S) :
  map_m (fun t => lift (py_index t 0)) (master_rows ts) w = (w, Ok (map PyStr ts)).
Proof.
  unfold master_rows. rewrite (map_m_pure _ (fun v => match v with PyTuple (x :: _) => x | _ => PyNone end)).
  - now rewrite map_map.
  - intros x Hx; apply in_map_iff in Hx as [t [<- _]]; reflexivity.
Qed.

Lemma ss_schema_table_ok txn acc t cols (w : World S) :
  w_conn w = Open txn -> pragma_ok txn t cols ->
  exists w', ss_schema_table acc (PyStr t) w = (w', Ok (dict_set acc t (PyList (map ss_entry cols))))
    /\ w_log w' = (w_log w ++ [EvExecute (pragma_query t); EvFetchall])%list
    /\ w_conn w' = Open txn.
Proof.
  intros Hw [c [Hc [Ht [Hr Hi]]]].
  cbv beta iota zeta delta [ss_schema_table bind lift ret table_key db_execute db_fetchall log_event].
  rewrite Hw, Hc, Ht; cbn [w_file w_conn w_log cur_rows]. rewrite Hr.
  rewrite (map_m_pure _ ss_entry) by (intros x Hx; apply ss_column_info;
    exact (proj1 (Forall_forall _ _) Hi x Hx)).
  eexists; repeat split. now rewrite <- app_assoc.
Qed.

(** The loop over tables whose [PRAGMA] all succeed. *)
Lemma ss_schema_loop txn ts info (w : World S) :
  w_conn w = Open txn -> (forall t, In t ts -> pragma_ok txn t (info t)) ->
  exists w', fold_m ss_schema_table [] (map PyStr ts) w = (w', Ok (schema_dict info ts))
    /\ w_log w' = (w_log w ++ flat_map (fun t => [EvExecute (pragma_query t); EvFetchall]) ts)%list
    /\ w_conn w' = Open txn.
Proof.
  intros Hw Hp.
  destruct (fold_m_spec ss_schema_table
     (fun acc v => match v with PyStr t => dict_set acc t (PyList (map ss_entry (info t))) | _ => acc end)
     (fun v => match v with PyStr t => [EvExecute (pragma_query t); EvFetchall] | _ => [] end)
     (fun w => w_conn w = Open txn) (map PyStr ts) [] w) as [w' [E [L C]]]; [|exact Hw|].
  - intros acc v w1 Hv Hw1. apply in_map_iff in Hv as [t [<- Ht]].
    exact (ss_schema_table_ok txn acc t (info t) w1 Hw1 (Hp t Ht)).
  - exists w'. autorewrite with sqlagent_rw in E, L. auto.
Qed.

(** The same, for the six-column rows [get_schema()] reads. *)
Definition s_pragma_ok (txn : S) (t : string) (cols : list pyval) : Prop :=
  exists c, be_execute txn (pragma_query t) = inr c /\ cur_txn c = txn
            /\ cur_rows c = inr cols /\ Forall info_row6 cols.

Lemma s_column_info col (w : World S) : info_row6 col -> s_column col w = (w, Ok (s_entry col)).
Proof. intros [cid [n [ty [nn [d [pk [rest ->]]]]]]]. reflexivity. Qed.

Lemma s_schema_table_ok txn acc t cols (w : World S) :
  w_conn w = Open txn -> s_pragma_ok txn t cols ->
  exists w', s_schema_table acc (PyTuple [PyStr t]) w
      = (w', Ok (dict_set acc t (PyList (map s_entry cols))))
    /\ w_log w' = (w_log w ++ [EvExecute (pragma_query t); EvFetchall])%list
    /\ w_conn w' = Open txn.
Proof.
  intros Hw [c [Hc [Ht [Hr Hi]]]].
  cbv beta iota zeta delta [s_schema_table bind lift ret py_index nth_error table_key
    db_execute db_fetchall log_event].
  rewrite Hw, Hc, Ht; cbn [w_file w_conn w_log cur_rows]. rewrite Hr.
  rewrite (map_m_pure _ s_entry) by (intros x Hx; apply s_column_info;
    exact (proj1 (Forall_forall _ _) Hi x Hx)).
  eexists; repeat split. now rewrite <- app_assoc.
Qed.

Lemma s_schema_loop txn ts info (w : World S) :
  w_conn w = Open txn -> (forall t, In t ts -> s_pragma_ok txn t (info t)) ->
  exists w', fold_m s_schema_table [] (master_rows ts) w = (w', Ok (s_schema_dict info ts))
    /\ w_log w' = (w_log w ++ flat_map (fun t => [EvExecute (pragma_query t); EvFetchall]) ts)%list
    /\ w_conn w' = Open txn.
Proof.
  intros Hw Hp.
  destruct (fold_m_spec s_schema_table
     (fun acc v => match v with
                   | PyTuple [PyStr t] => dict_set acc t (PyList (map s_entry (info t)))
                   | _ => acc end)
     (fun v => match v with
               | PyTuple [PyStr t] => [EvExecute (pragma_query t); EvFetchall]
               | _ => [] end)
     (fun w => w_conn w = Open txn) (master_rows ts) [] w) as [w' [E [L C]]]; [|exact Hw|].
  - intros acc v w1 Hv Hw1. unfold master_rows in Hv; apply in_map_iff in Hv as [t [<- Ht]].
    exact (s_schema_table_ok txn acc t (info t) w1 Hw1 (Hp t Ht)).
  - exists w'. unfold master_rows in E, L. autorewrite with sqlagent_rw in E, L. auto.
Qed.

(** The first steps of [schema()]: connect and read [sqlite_master]. *)
Lemma ss_schema_master c0 ts (w : World S) :
  be_connect (w_file w) = None -> be_execute (w_file w) master_query = inr c0 ->
  cur_rows c0 = inr (master_rows ts) ->
  ss_schema_body w =
  (schema_data <- fold_m ss_schema_table [] (map PyStr ts) ;; db_close ;;; ret schema_data)
    (mkWorld (if cur_autocommit c0 then cur_txn c0 else w_file w) (Open (cur_txn c0))
             (w_log w ++ [EvConnect; EvExecute master_query; EvFetchall])).
Proof.
  intros Hc He Hr.
  cbv beta iota zeta delta [ss_schema_body bind lift ret db_connect db_execute db_fetchall log_event].
  rewrite Hc; cbn [w_file w_conn w_log]. rewrite He, Hr.
  rewrite master_rows_index. cbn [w_file w_conn w_log]. now rewrite <- !app_assoc.
Qed.

End SchemaLoop.

(** ** Properties of the endpoints *)

Section Endpoints.
Context {S : Type} `{SqliteBackend S}.

(** C14: [/api/execute] of [simple_app.py] never runs a query: for
    every body whose [sql] is a non-blank string it answers 500 with
    the [NameError] of the undefined [execute_sql_query], and makes no
    call to the database. *)
Theorem simple_api_execute_name_error kvs s (w : World S) :
  dict_get kvs "sql" (PyStr "") = PyStr s -> strip s <> EmptyString ->
  s_api_execute (PyDict kvs) w =
    (w, Ok (Http500 (NameError "name 'execute_sql_query' is not defined"))).
Proof.
  intros Hsql Hs. unfold_views. rewrite Hsql. cbn.
  destruct (String.eqb_spec (strip s) ""); [contradiction|reflexivity].
Qed.

(** C15: [/api/execute] of [super_simple_app.py] sends a query made of
    white space only to the database: [if not sql] lets it through, the
    gate cleans it to the empty text and appends the clause, and the
    statement " LIMIT 100" is executed. *)
Theorem ss_execute_blank_reaches_db s (w : World S) :
  s <> EmptyString -> all_chars is_space s = true -> be_connect (w_file w) = None ->
  exists w' r l, ss_execute (PyDict [("sql", PyStr s)]) w = (w', Ok r)
    /\ w_log w' = (w_log w ++ l)%list /\ executed l = [" LIMIT 100"].
Proof.
  intros Hne Hs Hc. unfold_views.
  rewrite dict_get_hd, dict_get_tl, dict_get_nil by discriminate.
  rewrite truthy_nonempty_str by exact Hne. cbn [negb eq_str_lit].
  unfold_views. rewrite (safe_gate_blank s Hs). run_views; finish_outcome.
Qed.

(** C16: any [security_level] other than the exact string "safe" (a
    different case, [null], a number) turns the gate off: the text is
    executed as it came, a blocked keyword included. *)
Theorem ss_execute_level_not_safe s lvl (w : World S) :
  s <> EmptyString -> eq_str_lit lvl "safe" = false -> be_connect (w_file w) = None ->
  exists w' r l,
    ss_execute (PyDict [("sql", PyStr s); ("security_level", lvl)]) w = (w', Ok r)
    /\ w_log w' = (w_log w ++ l)%list /\ executed l = [s].
Proof.
  intros Hne Hl Hc. unfold_views.
  rewrite dict_get_hd, dict_get_tl, dict_get_hd by discriminate.
  rewrite truthy_nonempty_str, Hl by exact Hne. cbn [negb].
  run_views; finish_outcome.
Qed.

(** C11: end to end, the safe mode of [/api/execute] of
    super_simple_app.py: for any JSON object whose "security_level" is
    "safe" or absent, every statement the request sends to the database
    is what the gate allowed for the body's "sql" text, so by C1 it has
    no blocked keyword, no [;] and a LIMIT clause; a body whose "sql" is
    not a [str] sends none. *)
Theorem ss_execute_safe_statements kvs (w : World S) :
  eq_str_lit (dict_get kvs "security_level" (PyStr "safe")) "safe" = true ->
  exists l w' r, ss_execute (PyDict kvs) w = (w', Ok r) /\ w_log w' = (w_log w ++ l)%list
    /\ forall q, In q (executed l) ->
         exists s, dict_get kvs "sql" (PyStr "") = PyStr s /\ safe_gate s = Allow q.
Proof.
  intros Hs. cbv beta iota zeta delta [ss_execute flask_view py_try bind lift as_dict ret].
  rewrite Hs. destruct (negb (truthy (dict_get kvs "sql" (PyStr "")))).
  - exists []. unfold jsonify_m. destruct (jsonify _); do 2 eexists;
      (split; [reflexivity|]); (split; [symmetry; apply app_nil_r|intros q []]).
  - destruct (run_sql_safe_executed (dict_get kvs "sql" (PyStr "")) w) as [l [w1 [r [E [L X]]]]].
    rewrite E. exists l. unfold jsonify_m. destruct (jsonify r); do 2 eexists;
      (split; [reflexivity|]); (split; [exact L|exact X]).
Qed.

(** C17: a query that succeeds but returns a BLOB value makes the
    endpoint answer 500: [jsonify] of the result raises [TypeError]
    outside the [try], after the statement ran and the connection was
    closed. *)
Theorem ss_execute_blob_500 s t c rows names (w : World S) :
  s <> EmptyString -> be_connect (w_file w) = None -> safe_gate s = Allow t ->
  be_execute (w_file w) t = inr c -> upper_startswith "SELECT" (strip t) = true ->
  cur_rows c = inr rows -> cur_description c = Some names -> jsonify (PyList rows) = None ->
  exists w', ss_execute (PyDict [("sql", PyStr s)]) w =
    (w', Ok (Http500 (TypeError "Object of type bytes is not JSON serializable")))
    /\ w_conn w' = Closed.
Proof.
  intros Hne Hc Hg He Hsel Hr Hd Hj. unfold_views.
  rewrite dict_get_hd, dict_get_tl, dict_get_nil by discriminate.
  rewrite truthy_nonempty_str by exact Hne. cbn [negb eq_str_lit].
  rewrite String.eqb_refl. unfold_views.
  rewrite Hg; unfold_views; rewrite Hc; unfold_views; rewrite He; unfold_views.
  rewrite Hsel, Hr, Hd. unfold_views.
  rewrite (jsonify_ss_rows_none _ _ Hj). eexists; split; reflexivity.
Qed.

(** C19: an empty query is refused before the database: the empty or
    missing [sql] in [super_simple_app.py], any blank string in
    [simple_app.py]; the world is unchanged. *)
Theorem empty_query_no_db (w : World S) :
  ss_execute (PyDict [("sql", PyStr "")]) w =
    (w, Ok (Http200 (JObj [("success", JBool false); ("error", JStr "No SQL provided")])))
  /\ ss_execute (PyDict []) w =
    (w, Ok (Http200 (JObj [("success", JBool false); ("error", JStr "No SQL provided")])))
  /\ forall s, all_chars is_space s = true ->
     s_api_execute (PyDict [("sql", PyStr s)]) w =
       (w, Ok (Http200 (JObj [("success", JBool false); ("error", JStr "Empty query");
                              ("message", JStr "Please enter a SQL query")]))).
Proof.
  split; [reflexivity|split; [reflexivity|]].
  intros s Hs. unfold_views. rewrite dict_get_hd. cbn [strip_value lift].
  rewrite (proj2 (strip_empty_iff s) Hs). reflexivity.
Qed.

(** C20: [/api/schema] of [super_simple_app.py] lists every table: when
    the database opens, [sqlite_master] names the tables [ts] and each
    [PRAGMA table_info] succeeds, the response is the JSON of the
    dictionary mapping each table to its [{"name", "type"}] entries, the
    calls are exactly [schema_calls ts] and the connection is closed. *)
Theorem ss_schema_lists_tables (w : World S) c0 ts info j :
  be_connect (w_file w) = None -> be_execute (w_file w) master_query = inr c0 ->
  cur_rows c0 = inr (master_rows ts) ->
  (forall t, In t ts -> pragma_ok (cur_txn c0) t (info t)) ->
  jsonify (PyDict (schema_dict info ts)) = Some j ->
  exists w', ss_schema w = (w', Ok (Http200 j))
    /\ w_log w' = (w_log w ++ schema_calls ts)%list /\ w_conn w' = Closed.
Proof.
  intros Hc He Hr Hp Hj.
  cbv beta iota zeta delta [ss_schema flask_view py_try bind ret].
  rewrite (ss_schema_master c0 ts w Hc He Hr).
  cbv beta iota zeta delta [bind ret db_close].
  match goal with |- context [fold_m ss_schema_table [] (map PyStr ts) ?W] =>
    destruct (ss_schema_loop (cur_txn c0) ts info W eq_refl Hp) as [w1 [E [L C]]] end.
  rewrite E.
  unfold jsonify_m; rewrite Hj. eexists; repeat split; cbn [w_log].
  rewrite L; cbn [w_log]. unfold schema_calls. now rewrite <- !app_assoc.
Qed.

(** C21: the error path of [/api/schema]: when the [PRAGMA] of a table
    fails (an unquoted name with a space is a syntax error), the
    response is [{"error": msg}] with status 200, the later tables are
    never queried, and the connection is left open. *)
Theorem ss_schema_pragma_error (w : World S) c0 pre t post info msg :
  be_connect (w_file w) = None -> be_execute (w_file w) master_query = inr c0 ->
  cur_rows c0 = inr (master_rows (pre ++ t :: post)) ->
  (forall t', In t' pre -> pragma_ok (cur_txn c0) t' (info t')) ->
  be_execute (cur_txn c0) (pragma_query t) = inl msg ->
  exists w', ss_schema w = (w', Ok (Http200 (JObj [("error", JStr msg)])))
    /\ w_conn w' = Open (cur_txn c0)
    /\ w_log w' = (w_log w ++ [EvConnect; EvExecute master_query; EvFetchall]
                   ++ flat_map (fun t => [EvExecute (pragma_query t); EvFetchall]) pre
                   ++ [EvExecute (pragma_query t)])%list.
Proof.
  intros Hc He Hr Hp Hf.
  cbv beta iota zeta delta [ss_schema flask_view py_try bind ret].
  rewrite (ss_schema_master c0 _ w Hc He Hr), map_app.
  cbv beta iota zeta delta [bind ret db_close]. rewrite fold_m_app.
  match goal with |- context [fold_m ss_schema_table [] (map PyStr pre) ?W] =>
    destruct (ss_schema_loop (cur_txn c0) pre info W eq_refl Hp) as [w1 [E [L C]]] end.
  rewrite E. cbv beta iota zeta delta [map fold_m bind ss_schema_table lift table_key ret db_execute].
  rewrite C, Hf. cbv beta iota zeta delta [log_event jsonify_m]; cbn [w_log].
  eexists; repeat split; [exact C|]. rewrite L; cbn [w_log]. now rewrite <- !app_assoc.
Qed.

(** C23: [/api/schema] of [simple_app.py] on success: [get_schema()]
    builds the table-to-columns dictionary with [not_null] and
    [primary_key] as booleans, closes the connection, and [api_schema]
    answers its JSON. *)
Theorem s_api_schema_lists_tables (w : World S) c0 ts info j :
  be_connect (w_file w) = None -> be_execute (w_file w) master_query = inr c0 ->
  cur_rows c0 = inr (master_rows ts) ->
  (forall t, In t ts -> s_pragma_ok (cur_txn c0) t (info t)) ->
  jsonify (PyDict (s_schema_dict info ts)) = Some j ->
  exists w', s_api_schema w = (w', Ok (Http200 j))
    /\ w_log w' = (w_log w ++ schema_calls ts)%list /\ w_conn w' = Closed.
Proof.
  intros Hc He Hr Hp Hj.
  cbv beta iota zeta delta [s_api_schema flask_view s_get_schema py_try bind ret lift
    get_db_connection db_connect db_execute db_fetchall log_event db_close].
  rewrite Hc; cbn [w_file w_conn w_log]. rewrite He; cbn [w_file w_conn w_log]. rewrite Hr.
  match goal with |- context [fold_m s_schema_table [] (master_rows ts) ?W] =>
    destruct (s_schema_loop (cur_txn c0) ts info W eq_refl Hp) as [w1 [E [L C]]] end.
  rewrite E. unfold jsonify_m; rewrite Hj. eexists; repeat split; cbn [w_log].
  rewrite L; cbn [w_log]. unfold schema_calls. now rewrite <- !app_assoc.
Qed.

(** C24: a JSON body that is not an object ([null], a list, a string,
    a number) makes both [/api/execute] views answer 500 with the
    [AttributeError] of [data.get], before any call to the database. *)
Theorem execute_non_dict_500 v (w : World S) :
  (forall kvs, v <> PyDict kvs) ->
  ss_execute v w = (w, Ok (Http500 (no_attribute v "get")))
  /\ s_api_execute v w = (w, Ok (Http500 (no_attribute v "get"))).
Proof.
  intros Hv. destruct v; try (exfalso; eapply Hv; reflexivity); split; reflexivity.
Qed.

(** C30: the error path of [/api/schema] of [simple_app.py]: a failing
    [PRAGMA] is caught inside [get_schema()], whose [{"error": msg}]
    [api_schema] answers with status 200; the later tables are never
    queried and the connection is left open. *)
Theorem s_api_schema_pragma_error (w : World S) c0 pre t post info msg :
  be_connect (w_file w) = None -> be_execute (w_file w) master_query = inr c0 ->
  cur_rows c0 = inr (master_rows (pre ++ t :: post)) ->
  (forall t', In t' pre -> s_pragma_ok (cur_txn c0) t' (info t')) ->
  be_execute (cur_txn c0) (pragma_query t) = inl msg ->
  exists w', s_api_schema w = (w', Ok (Http200 (JObj [("error", JStr msg)])))
    /\ w_conn w' = Open (cur_txn c0).
Proof.
  intros Hc He Hr Hp Hf.
  cbv beta iota zeta delta [s_api_schema flask_view s_get_schema py_try bind ret lift
    get_db_connection db_connect db_execute db_fetchall log_event db_close].
  rewrite Hc; cbn [w_file w_conn w_log]. rewrite He; cbn [w_file w_conn w_log]. rewrite Hr.
  unfold master_rows at 1; rewrite map_app, fold_m_app.
  change (map (fun t => PyTuple [PyStr t]) pre) with (master_rows pre).
  match goal with |- context [fold_m s_schema_table [] (master_rows pre) ?W] =>
    destruct (s_schema_loop (cur_txn c0) pre info W eq_refl Hp) as [w1 [E [_ C]]] end.
  rewrite E. cbv beta iota zeta delta [map fold_m bind s_schema_table lift py_index nth_error
    table_key ret db_execute].
  rewrite C, Hf. cbv beta iota zeta delta [log_event jsonify_m]; cbn [w_conn].
  eexists; split; [reflexivity|exact C].
Qed.

End Endpoints.

(** ** Runs on a scripted database *)

Definition customers_info : list pyval :=
  [PyTuple [PyInt 0; PyStr "id"; PyStr "INTEGER"; PyInt 0; PyNone; PyInt 1];
   PyTuple [PyInt 1; PyStr "name"; PyStr "TEXT"; PyInt 1; PyNone; PyInt 0]].

(** A database whose [sqlite_master] lists [ts], with [customers] the
    only table [PRAGMA table_info] knows, above the statements of
    [demo_script]. *)
Definition shop_script (ts : list string) : script :=
  (master_query, fun db => inr (mkCursor db true (inr (master_rows ts)) (Some ["name"]) (-1)))
  :: (pragma_query "customers", fun db => inr (mkCursor db true (inr customers_info)
                                    (Some ["cid"; "name"; "type"; "notnull"; "dflt_value"; "pk"]) (-1)))
  :: demo_script.

Definition shop_info (t : string) : list pyval := if String.eqb t "customers" then customers_info else [].

Lemma simple_api_execute_name_error_witness :
  dict_get [("sql", PyStr "SELECT 1")] "sql" (PyStr "") = PyStr "SELECT 1"
  /\ strip "SELECT 1" <> EmptyString
  /\ s_api_execute (S:=Z) (PyDict [("sql", PyStr "SELECT 1")]) demo_world =
     (demo_world, Ok (Http500 (NameError "name 'execute_sql_query' is not defined"))).
Proof.
  assert (Hs : strip "SELECT 1" <> EmptyString) by (vm_compute; discriminate).
  split; [reflexivity|split; [exact Hs|]].
  apply (simple_api_execute_name_error _ "SELECT 1"); [reflexivity|exact Hs].
Defined.

Lemma ss_execute_blank_reaches_db_witness :
  "  "%string <> EmptyString /\ all_chars is_space "  " = true
  /\ exists w' r l, @ss_execute Z demo (PyDict [("sql", PyStr "  ")]) demo_world = (w', Ok r)
     /\ w_log w' = (w_log demo_world ++ l)%list /\ executed l = [" LIMIT 100"].
Proof.
  split; [discriminate|split; [reflexivity|]].
  apply ss_execute_blank_reaches_db; [discriminate|reflexivity|reflexivity].
Defined.

Lemma ss_execute_safe_statements_witness :
  eq_str_lit (dict_get [("sql", PyStr "SELECT * FROM customers")] "security_level" (PyStr "safe"))
    "safe" = true
  /\ exists l w' r, @ss_execute Z demo (PyDict [("sql", PyStr "SELECT * FROM customers")]) demo_world
       = (w', Ok r) /\ w_log w' = (w_log demo_world ++ l)%list
     /\ forall q, In q (executed l) ->
          exists s, dict_get [("sql", PyStr "SELECT * FROM customers")] "sql" (PyStr "") = PyStr s
                    /\ safe_gate s = Allow q.
Proof.
  split; [reflexivity|].
  exact (@ss_execute_safe_statements Z demo [("sql", PyStr "SELECT * FROM customers")] demo_world eq_refl).
Defined.

Lemma ss_execute_level_not_safe_witness :
  eq_str_lit (PyStr "SAFE") "safe" = false
  /\ exists w' r l, @ss_execute Z demo
       (PyDict [("sql", PyStr "DROP TABLE products"); ("security_level", PyStr "SAFE")]) demo_world
       = (w', Ok r) /\ w_log w' = (w_log demo_world ++ l)%list /\ executed l = ["DROP TABLE products"].
Proof.
  split; [reflexivity|].
  apply ss_execute_level_not_safe; [discriminate|reflexivity|reflexivity].
Defined.

Lemma ss_execute_blob_500_witness :
  jsonify (PyList [PyTuple [PyBytes [Byte.x00; Byte.xff]]]) = None
  /\ exists w', @ss_execute Z demo (PyDict [("sql", PyStr "SELECT data FROM blobs")]) demo_world =
      (w', Ok (Http500 (TypeError "Object of type bytes is not JSON serializable")))
     /\ w_conn w' = Closed.
Proof.
  split; [reflexivity|].
  apply (@ss_execute_blob_500 Z demo "SELECT data FROM blobs" "SELECT data FROM blobs LIMIT 100"
           (blob_cursor 0%Z) [PyTuple [PyBytes [Byte.x00; Byte.xff]]] ["data"]);
    try reflexivity; discriminate.
Defined.

Lemma ss_schema_lists_tables_witness :
  exists j, jsonify (PyDict (schema_dict shop_info ["customers"])) = Some j
  /\ exists w', @ss_schema Z (script_backend (shop_script ["customers"])) demo_world = (w', Ok (Http200 j))
     /\ w_log w' = schema_calls ["customers"] /\ w_conn w' = Closed.
Proof.
  eexists; split; [reflexivity|].
  apply (@ss_schema_lists_tables Z (script_backend (shop_script ["customers"])) demo_world
           (mkCursor 0%Z true (inr (master_rows ["customers"])) (Some ["name"]) (-1))
           ["customers"] shop_info); try reflexivity.
  intros t [<-|[]]. eexists; repeat split.
  repeat constructor; do 4 eexists; reflexivity.
Defined.

Lemma ss_schema_pragma_error_witness :
  exists w', @ss_schema Z (script_backend (shop_script ["customers"; "order items"])) demo_world
    = (w', Ok (Http200 (JObj [("error", JStr "syntax error")])))
    /\ w_conn w' = Open 0%Z
    /\ w_log w' = [EvConnect; EvExecute master_query; EvFetchall;
                   EvExecute (pragma_query "customers"); EvFetchall;
                   EvExecute (pragma_query "order items")].
Proof.
  apply (@ss_schema_pragma_error Z (script_backend (shop_script ["customers"; "order items"]))
           demo_world (mkCursor 0%Z true (inr (master_rows ["customers"; "order items"])) (Some ["name"]) (-1))
           ["customers"] "order items" [] shop_info "syntax error"); try reflexivity.
  intros t [<-|[]]. eexists; repeat split.
  repeat constructor; do 4 eexists; reflexivity.
Defined.

Lemma s_api_schema_lists_tables_witness :
  exists j, jsonify (PyDict (s_schema_dict shop_info ["customers"])) = Some j
  /\ exists w', @s_api_schema Z (script_backend (shop_script ["customers"])) demo_world
       = (w', Ok (Http200 j))
     /\ w_log w' = schema_calls ["customers"] /\ w_conn w' = Closed.
Proof.
  eexists; split; [reflexivity|].
  apply (@s_api_schema_lists_tables Z (script_backend (shop_script ["customers"])) demo_world
           (mkCursor 0%Z true (inr (master_rows ["customers"])) (Some ["name"]) (-1))
           ["customers"] shop_info); try reflexivity.
  intros t [<-|[]]. eexists; repeat split.
  repeat constructor; do 7 eexists; reflexivity.
Defined.

Lemma execute_non_dict_500_witness :
  (forall kvs, PyNone <> PyDict kvs)
  /\ @ss_execute Z demo PyNone demo_world
     = (demo_world, Ok (Http500 (AttributeError "'NoneType' object has no attribute 'get'"))).
Proof.
  assert (Hv : forall kvs, PyNone <> PyDict kvs) by discriminate.
  split; [exact Hv|]. exact (proj1 (@execute_non_dict_500 Z demo PyNone demo_world Hv)).
Defined.

Lemma s_api_schema_pragma_error_witness :
  exists w', @s_api_schema Z (script_backend (shop_script ["customers"; "order items"])) demo_world
    = (w', Ok (Http200 (JObj [("error", JStr "syntax error")]))) /\ w_conn w' = Open 0%Z.
Proof.
  apply (@s_api_schema_pragma_error Z (script_backend (shop_script ["customers"; "order items"]))
           demo_world (mkCursor 0%Z true (inr (master_rows ["customers"; "order items"])) (Some ["name"]) (-1))
           ["customers"] "order items" [] shop_info "syntax error"); try reflexivity.
  intros t [<-|[]]. eexists; repeat split.
  repeat constructor; do 7 eexists; reflexivity.
Defined.

End Api.
