(* ===== verification/Server.v ===== *)
(** * The server: routes, a sequence of requests, start-up

    Each file declares its views with [@app.route(path, methods=...)];
    Flask routes a request to the view of its path, answers 404 when no
    rule has the path (a trailing [/] included: the rules have none) and
    405 when the rule does not allow the method.  [ss_routes] and
    [s_routes] are the two files' route tables, in the order of their
    decorators, and [dispatch] is Flask's routing.  [serve] answers a
    sequence of requests in order: each request has its own connection,
    and the database file passes from one request to the next.

    [home()] (super_simple_app.py 57-59) and [index()] (simple_app.py
    133-136) render the template [simple_index.html], which is outside
    [src/]: the reply is the template's name.

    The [__main__] blocks start the server: super_simple_app.py runs
    [init_db()] then [app.run()], simple_app.py only [app.run()].  The
    server's world starts from the disk [Init] leaves: the database file,
    or the empty database [sqlite3.connect] creates for a missing one.
    Their [print]s are not modelled (their texts hold characters above
    U+00FF); [app.run] is the serving of requests, [serve].

    Over any sequence of requests simple_app.py's server leaves the
    database file as it was (C18): its only view that could write,
    [api_execute], raises before any statement. *)

From Stdlib Require Import String List Bool ZArith.
From S2P Require Import Prelude PyVal Sqlite Init Execute Api.
Import ListNotations.
Local Open Scope string_scope.

Module Server.
Import PyVal Sqlite Init Execute Api.
Local Open Scope sqlagent_scope.

Inductive Method : Type := GET | POST | PUT | DELETE.

Definition method_eqb (m1 m2 : Method) : bool :=
  match m1, m2 with
  | GET, GET | POST, POST | PUT, PUT | DELETE, DELETE => true
  | _, _ => false
  end.

(** What the server sends back. *)
Inductive reply : Type :=
| RJson (r : http_response)      (** a view's JSON, or Flask's 500 *)
| RHtml (template : string)      (** [render_template(template)] *)
| R404
| R405.

(** A request: its method, its path, and what [request.get_json()]
    returns for its body. *)
Record Request := mkRequest { rq_method : Method; rq_path : string; rq_body : pyval }.

Section Routes.
Context {S : Type} `{SqliteBackend S}.

Definition view : Type := pyval -> PyM S reply.

Definition index : view := fun _ => ret (RHtml "simple_index.html").

(** A view that does not read the body. *)
Definition json_view (m : PyM S http_response) : view := fun _ => r <- m ;; ret (RJson r).


Definition s_routes : list (string * list Method * view) := [
  ("/", [GET], index);
  ("/api/schema", [GET], json_view s_api_schema);
  ("/api/execute", [POST], fun body => r <- s_api_execute body ;; ret (RJson r));
  ("/api/samples", [GET], json_view s_api_samples)].

Fixpoint route_lookup (routes : list (string * list Method * view)) (path : string)
  : option (list Method * view) :=
  match routes with
  | [] => None
  | (p, ms, v) :: rest => if String.eqb p path then Some (ms, v) else route_lookup rest path
  end.

(** Flask's routing of one request. *)
Definition dispatch (routes : list (string * list Method * view)) (rq : Request) : PyM S reply :=
  match route_lookup routes (rq_path rq) with
  | None => ret R404
  | Some (ms, v) => if existsb (method_eqb (rq_method rq)) ms then v (rq_body rq) else ret R405
  end.

(** A request starts without a connection: the one of the previous
    request is not its own, and what it did not commit is lost. *)
Definition new_request : PyM S unit := fun w => (mkWorld (w_file w) NoConn (w_log w), Ok tt).

(** [app.run()] answering the requests [rqs] one after the other. *)
Definition serve (routes : list (string * list Method * view)) (rqs : list Request)
  : PyM S (list reply) :=
  map_m (fun rq => new_request ;;; dispatch routes rq) rqs.

End Routes.

Section Startup.
Context {S : Type} `{SqliteBackend S} `{SqliteScript S}.

(** The server's world on the disk [d]. *)
Definition start_world (d : Disk S) : World S :=
  mkWorld (match d_db d with Some x => x | None => be_empty end) NoConn [].

(** [__main__] of super_simple_app.py: [init_db()], then [app.run()];
    an exception of [init_db] stops the process before the server runs. *)
Definition ss_startup : StM (Disk S) (World S) :=
  init_db ;;; (fun d => (d, Ok (start_world d))).

(** [__main__] of simple_app.py: [app.run()], without [initialize_db()]. *)
Definition s_startup : StM (Disk S) (World S) := fun d => (d, Ok (start_world d)).

End Startup.

(** [m] leaves the database file as it found it. *)
Definition keeps_file {S A} (m : PyM S A) : Prop := forall w, w_file (fst (m w)) = w_file w.

(** ** Properties *)

Section Props.
Context {S : Type} `{SqliteBackend S}.



(** ** Reading without writing *)

Lemma reads_only_jsonify_m v : reads_only (jsonify_m v : PyM S http_response).
Proof. unfold jsonify_m; destruct (jsonify v); auto with reads_only. Qed.

Lemma reads_only_flask_view m : reads_only m -> reads_only (flask_view m : PyM S http_response).
Proof. unfold flask_view; auto with reads_only. Qed.

Lemma reads_only_json_view (m : PyM S http_response) body :
  reads_only m -> reads_only (json_view m body).
Proof. unfold json_view; auto with reads_only. Qed.

#[local] Hint Resolve reads_only_jsonify_m reads_only_flask_view reads_only_json_view : reads_only.

(** Every round of [serve] starts without a connection, so a round
    whose view only reads keeps the file, from any world. *)
Lemma new_request_keeps_file {A} (m : PyM S A) : reads_only m -> keeps_file (new_request ;;; m).
Proof. intros Hm w. exact (proj1 (Hm (mkWorld (w_file w) NoConn (w_log w)) I)). Qed.

Lemma keeps_file_map_m {A B} (f : A -> PyM S B) l :
  (forall x, keeps_file (f x)) -> keeps_file (map_m f l).
Proof.
  intros Hf; induction l as [|x l IH]; intros w; [reflexivity|]. cbn [map_m]; unfold bind.
  specialize (Hf x w). destruct (f x w) as [w1 [y|e]]; cbn [fst] in *; [|exact Hf].
  specialize (IH w1). destruct (map_m f l w1) as [w2 [ys|e]]; unfold ret; cbn [fst] in *; congruence.
Qed.

Section SimpleReadOnly.
Hypothesis master_reads : read_stmt master_query.
Hypothesis pragma_reads : forall t, read_stmt (pragma_query t).

Lemma s_api_schema_reads_only : reads_only s_api_schema.
Proof.
  unfold s_api_schema, s_get_schema, s_schema_table, s_column.
  apply reads_only_flask_view; reads_only_tac.
Qed.

Lemma s_api_execute_reads_only body : reads_only (s_api_execute body : PyM S http_response).
Proof.
  unfold s_api_execute; apply reads_only_flask_view; reads_only_tac.
Qed.

Lemma s_dispatch_reads_only rq : reads_only (dispatch s_routes rq).
Proof.
  destruct rq as [m p body]. unfold dispatch; cbn [rq_method rq_path rq_body].
  destruct (route_lookup s_routes p) as [[ms v]|] eqn:E; [|auto with reads_only].
  destruct (existsb (method_eqb m) ms); [|auto with reads_only].
  cbn [route_lookup s_routes] in E;
    repeat match type of E with context [String.eqb ?a p] => destruct (String.eqb a p) end;
    try discriminate; injection E as <- <-.
  - unfold index; auto with reads_only.
  - auto using s_api_schema_reads_only with reads_only.
  - auto using s_api_execute_reads_only with reads_only.
  - unfold s_api_samples; auto with reads_only.
Qed.

End SimpleReadOnly.

(** C18: simple_app.py never writes the database: whatever the
    requests, their paths, methods and bodies, the file after serving
    them is the file before, provided the statements its schema listing
    runs (the [sqlite_master] query and [PRAGMA table_info]) only read.
    Its [/api/execute] raises [NameError] before any statement runs,
    and no other view runs one that writes; super_simple_app.py, whose
    [run_sql] commits, has no such invariant (C22). *)
Theorem simple_server_read_only :
  read_stmt master_query -> (forall t, read_stmt (pragma_query t)) ->
  forall rqs (w : World S), w_file (fst (serve s_routes rqs w)) = w_file w.
Proof.
  intros Hm Hp rqs. apply keeps_file_map_m; intros rq.
  apply new_request_keeps_file, s_dispatch_reads_only; assumption.
Qed.

End Props.

Section StartupProps.
Context {S : Type} `{SqliteBackend S} `{SqliteScript S}.

(** C32: only super_simple_app.py seeds the database: started on a
    disk without the database file and with a seed script that runs,
    it serves the seeded database, while simple_app.py serves the empty
    database [sqlite3.connect] creates, so that its first [/api/schema]
    lists no table. *)
Theorem startup_seeding (d : Disk S) script db' c0 :
  d_db d = None -> d_seed d = Some script -> be_executescript be_empty script = (db', None) ->
  be_connect be_empty = None -> be_execute be_empty master_query = inr c0 -> cur_rows c0 = inr [] ->
  (exists d', ss_startup d = (d', Ok (start_world d')) /\ w_file (start_world d') = db')
  /\ (exists w', s_api_schema (start_world (fst (s_startup d))) = (w', Ok (Http200 (JObj [])))).
Proof.
  intros Hd Hs He Hc Hm Hr. split.
  - unfold ss_startup, bind. rewrite (init_db_seeds_fresh d script db' Hd Hs He).
    eexists; split; reflexivity.
  - unfold s_startup, start_world; cbn [fst]. rewrite Hd.
    cbv beta iota zeta delta [s_api_schema flask_view s_get_schema py_try bind ret lift
      get_db_connection db_connect db_execute db_fetchall log_event db_close jsonify_m].
    cbn [w_file w_conn w_log]. rewrite Hc; cbn [w_file w_conn w_log]. rewrite Hm, Hr.
    eexists; reflexivity.
Qed.

End StartupProps.

(** ** Runs on scripted engines *)


(** A disk and a database whose [sqlite_master] is empty until the seed
    script, the one text the engine runs, has created a table. *)
#[local] Instance startup_backend : SqliteBackend Z :=
  script_backend [(master_query, fun db => inr (mkCursor db true (inr []) (Some ["name"]) (-1)))].

#[local] Instance startup_engine : SqliteScript Z := {|
  be_empty := 0%Z;
  be_executescript := fun db script =>
    if String.eqb script demo_seed then (1%Z, None) else (db, Some "syntax error")
|}.

Lemma startup_seeding_witness :
  (exists d', ss_startup (mkDisk None (Some demo_seed) []) = (d', Ok (start_world d'))
              /\ w_file (start_world d') = 1%Z)
  /\ (exists w', s_api_schema (start_world (fst (s_startup (mkDisk None (Some demo_seed) [])))) =
                 (w', Ok (Http200 (JObj [])))).
Proof.
  apply (startup_seeding _ demo_seed 1%Z (mkCursor 0%Z true (inr []) (Some ["name"]) (-1)));
    reflexivity.
Defined.

Lemma simple_server_read_only_witness :
  @read_stmt Z startup_backend master_query
  /\ (forall t, @read_stmt Z startup_backend (pragma_query t))
  /\ w_file (fst (serve (@s_routes Z startup_backend)
                  [mkRequest GET "/api/schema" PyNone;
                   mkRequest POST "/api/execute" (PyDict [("sql", PyStr "DROP TABLE customers")])]
                  demo_world)) = w_file demo_world.
Proof.
  assert (Hm : @read_stmt Z startup_backend master_query)
    by (intros txn c E; cbn in E; injection E as <-; reflexivity).
  assert (Hp : forall t, @read_stmt Z startup_backend (pragma_query t))
    by (intros t txn c E; cbn in E; discriminate).
  split; [exact Hm|split; [exact Hp|]].
  exact (@simple_server_read_only Z startup_backend Hm Hp _ demo_world).
Defined.

End Server.
